(** * Task service: request handlers, identity extraction, startup and health

    A shallow embedding of [task-service/app/main.py].  Python integers are
    [Z]; header values and messages are [string] (one [ascii] per Latin-1
    code point, which is how the HTTP layer hands header values to the
    handlers); raised exceptions are values of [exn]; and every coroutine is
    a function from the world (database state and the trace of log records
    and sleeps) to a result and a new world. *)

From Stdlib Require Import ZArith List String Ascii Bool Lia DecimalString.
From Stdlib Require DecimalPos DecimalZ.
Import ListNotations.
Local Open Scope Z_scope.
Local Open Scope string_scope.

Set Implicit Arguments.

(** ** Exceptions and results *)

(** The subclasses of Python's [Exception] that the module names, and a
    constructor for every other subclass.  [BaseException]s that are not
    [Exception]s (interpreter exit, task cancellation) are not raised by the
    operations modelled here. *)
Inductive exn : Type :=
| HTTPException (status_code : Z) (detail : string)
| ValueError (msg : string)
| RuntimeError (msg : string)
| OperationalError (msg : string)
| CannotConnectNowError (msg : string)
| ConnectionRefusedError (msg : string)
| OtherException (class_name msg : string).

Inductive result (A : Type) : Type :=
| Return (a : A)
| Raise (e : exn).
Arguments Return {A} a.
Arguments Raise {A} e.

(** [isinstance(e, HTTPException)] *)
Definition is_HTTPException (e : exn) : bool :=
  match e with HTTPException _ _ => true | _ => false end.

(** [str(n)] for an [int]. *)
Definition str_of_int (n : Z) : string := NilZero.string_of_int (Z.to_int n).

(** [str(e)]: the message the exception was built with; an [HTTPException]
    prints as its status code and detail. *)
Definition str_of_exn (e : exn) : string :=
  match e with
  | HTTPException s d => str_of_int s ++ ": " ++ d
  | ValueError m | RuntimeError m | OperationalError m
  | CannotConnectNowError m | ConnectionRefusedError m => m
  | OtherException _ m => m
  end.

(** ** The builtin [int] on a header string *)

Module PyInt.

Definition code (c : ascii) : N := N_of_ascii c.

(** Whitespace that [int] strips: the ASCII blanks (tab, line feed,
    vertical tab, form feed, carriage return, space) and, above ASCII, the
    two Latin-1 code points Unicode classes as white space (NEL and
    no-break space). *)
Definition is_space (c : ascii) : bool :=
  let n := code c in
  ((9 <=? n) && (n <=? 13) || (n =? 32) || (n =? 133) || (n =? 160))%N.

Definition digit_value (c : ascii) : option Z :=
  let n := code c in
  if ((48 <=? n) && (n <=? 57))%N then Some (Z.of_N n - 48) else None.

Definition is_underscore (c : ascii) : bool := (code c =? 95)%N.

Fixpoint lstrip (s : string) : string :=
  match s with
  | String c s' => if is_space c then lstrip s' else s
  | EmptyString => s
  end.

(** What the digit scanner has just read. *)
Inductive prev := Start | Digit | Underscore.

(** Scan a run of decimal digits in which single underscores may separate
    digits.  Yields the value, the number of digits and the unread rest;
    [None] on a leading, doubled or trailing underscore or when there is
    no digit at all. *)
Fixpoint scan_digits (s : string) (p : prev) (acc : Z) (digits : nat)
  : option (Z * nat * string) :=
  let stop :=
    match p with
    | Digit => Some (acc, digits, s)
    | Start | Underscore => None
    end in
  match s with
  | EmptyString => stop
  | String c s' =>
      match digit_value c with
      | Some d => scan_digits s' Digit (10 * acc + d) (S digits)
      | None =>
          if is_underscore c then
            match p with
            | Digit => scan_digits s' Underscore acc digits
            | Start | Underscore => None
            end
          else stop
      end
  end.

(** [sys.int_info.default_max_str_digits] *)
Definition max_str_digits : nat := 4300.

(** [int(s)] in base 10: [Some n] when it returns [n], [None] when it
    raises [ValueError]. *)
Definition int (s : string) : option Z :=
  let s1 := lstrip s in
  let '(negative, s2) :=
    match s1 with
    | String "-" r => (true, r)
    | String "+" r => (false, r)
    | _ => (false, s1)
    end in
  match scan_digits s2 Start 0 0 with
  | None => None
  | Some (v, digits, rest) =>
      if (max_str_digits <? digits)%nat then None
      else
        match lstrip rest with
        | EmptyString => Some (if negative then - v else v)
        | String _ _ => None
        end
  end.

End PyInt.

(** ** Data model *)

(** Modelled from the spec: [models.py] is absent; a task row has the
    fields the data model lists: a generated [id], the [owner_id] of the
    creating caller, and the descriptive [title], [description], [status]. *)
Module Task.
Record t : Type := mk {
  id : Z;
  owner_id : Z;
  title : string;
  description : option string;
  status : string
}.
End Task.

(** Modelled from the spec: [schemas.py] is absent; the create payload
    carries title, description and status. *)
Module TaskCreate.
Record t : Type := mk {
  title : string;
  description : option string;
  status : string
}.
End TaskCreate.

(** Modelled from the spec: [schemas.py] is absent; the update payload is
    partial: each descriptive field is either supplied ([Some]) or not. *)
Module TaskUpdate.
Record t : Type := mk {
  title : option string;
  description : option string;
  status : option string
}.
End TaskUpdate.

(** ** The world and the handler monad *)

Inductive level : Type := INFO | WARNING | ERROR | CRITICAL.

(** What a coroutine does besides talking to the database: it writes log
    records and it sleeps. *)
Inductive event : Type :=
| Log (lvl : level) (msg : string)
| Sleep (seconds : Z).

Record world (DB : Type) : Type := mkWorld {
  db : DB;
  trace : list event
}.

Definition M (DB A : Type) : Type := world DB -> result A * world DB.

Definition ret {DB A} (a : A) : M DB A := fun w => (Return a, w).

Definition raise {DB A} (e : exn) : M DB A := fun w => (Raise e, w).

Definition bind {DB A B} (c : M DB A) (k : A -> M DB B) : M DB B :=
  fun w =>
    match c w with
    | (Return a, w') => k a w'
    | (Raise e, w') => (Raise e, w')
    end.

(** [try: c  except Exception as e: h e] *)
Definition try_except {DB A} (c : M DB A) (h : exn -> M DB A) : M DB A :=
  fun w =>
    match c w with
    | (Return a, w') => (Return a, w')
    | (Raise e, w') => h e w'
    end.

(** An awaited operation of the persistence layer: it acts on the database
    and leaves the trace alone. *)
Definition await {DB A} (op : DB -> result A * DB) : M DB A :=
  fun w =>
    let (r, d) := op (db w) in
    (r, {| db := d; trace := trace w |}).

Definition emit {DB} (ev : event) : M DB unit :=
  fun w => (Return tt, {| db := db w; trace := trace w ++ [ev] |}).

Definition logger {DB} (lvl : level) (msg : string) : M DB unit :=
  emit (Log lvl msg).

(** [await asyncio.sleep(delay)] *)
Definition asyncio_sleep {DB} (delay : Z) : M DB unit := emit (Sleep delay).

(** The world once the database has moved to [d]. *)
Definition with_db {DB} (w : world DB) (d : DB) : world DB :=
  {| db := d; trace := trace w |}.

(** ... and once a record has been logged as well. *)
Definition logged {DB} (w : world DB) (d : DB) (lvl : level) (msg : string)
  : world DB :=
  {| db := d; trace := trace w ++ [Log lvl msg] |}.

Declare Scope py_scope.
Delimit Scope py_scope with py.
Notation "x <- c ;; k" := (bind c (fun x => k))
  (at level 61, c at next level, right associativity) : py_scope.
Notation "c ;; k" := (bind c (fun _ => k))
  (at level 61, right associativity) : py_scope.
Local Open Scope py_scope.

(** ** The collaborators of [main.py] *)

(** The operations [main.py] calls on [crud] and on [database.engine].
    Each takes the database to a result (a value or a raised exception) and
    a new database. *)
Class Persistence (DB : Type) : Type := {
  (** [crud.create_task(db, task, user_id)] *)
  crud_create_task : TaskCreate.t -> Z -> DB -> result Task.t * DB;
  (** [crud.get_user_tasks(db, user_id, skip, limit)] *)
  crud_get_user_tasks : Z -> Z -> Z -> DB -> result (list Task.t) * DB;
  (** [crud.get_task(db, task_id)]: the row, or [None] *)
  crud_get_task : Z -> DB -> result (option Task.t) * DB;
  (** [crud.update_task(db, task_id, task_update)] *)
  crud_update_task : Z -> TaskUpdate.t -> DB -> result Task.t * DB;
  (** [crud.delete_task(db, task_id)] *)
  crud_delete_task : Z -> DB -> result unit * DB;
  (** [async with engine.begin() as conn:
         await conn.run_sync(models.Base.metadata.create_all)] *)
  engine_begin_create_all : DB -> result unit * DB;
  (** [async with engine.connect() as conn: await conn.execute("SELECT 1")] *)
  engine_connect_select_1 : DB -> result unit * DB
}.

(** ** Identity extraction *)

Definition unauthorized : exn := HTTPException 401 "User ID not provided".
Definition bad_request : exn := HTTPException 400 "Invalid user ID".

(** [get_user_id_from_header]: [if not x_user_id] holds for an absent header
    and for an empty one. *)
Definition get_user_id_from_header (x_user_id : option string) : result Z :=
  match x_user_id with
  | None | Some EmptyString =>
      Raise unauthorized
  | Some s =>
      match PyInt.int s with
      | Some n => Return n
      | None => Raise bad_request
      end
  end.

(** [Depends(get_user_id_from_header)]: the dependency is resolved before
    the handler body runs; what it raises is raised by the request. *)
Definition Depends {DB A} (x_user_id : option string) (handler : Z -> M DB A)
  : M DB A :=
  match get_user_id_from_header x_user_id with
  | Return user_id => handler user_id
  | Raise e => raise e
  end.

Definition internal_server_error : exn :=
  HTTPException 500 "Internal server error".

(** [config.Settings]: the values loaded from the environment. *)
Record Settings : Type := mkSettings {
  DATABASE_URL : string;
  jwt_secret_key : string;
  jwt_algorithm : string;
  service_name : string;
  service_port : Z;
  log_level : string;
  db_pool_size : Z;
  db_max_overflow : Z
}.

(** What [startup_event] reads of [urllib.parse.urlparse(db_url)]: the
    [hostname] attribute ([None] when the URL has none) and the [port]
    property, which raises [ValueError] on a port that is not a number. *)
Record ParseResult : Type := mkParseResult {
  hostname : option string;
  port : result (option Z)
}.

(** How an f-string renders an optional attribute. *)
Definition str_of_option {A} (str : A -> string) (o : option A) : string :=
  match o with
  | Some a => str a
  | None => "None"
  end.

Section Handlers.

Context {DB : Type} `{Persistence DB}.

(** [settings] and the library function [urlparse], which raises
    [ValueError] on a URL it cannot split. *)
Variable settings : Settings.
Variable urlparse : string -> result ParseResult.

(** *** Startup *)

Definition retries : nat := 10.
Definition delay : Z := 3.

Definition is_not_ready (e : exn) : bool :=
  match e with
  | OperationalError _ | CannotConnectNowError _
  | ConnectionRefusedError _ => true
  | _ => false
  end.

(** The body of [for attempt in range(1, retries + 1): ... else: ...]
    over the attempt numbers still to run. *)
Fixpoint startup_loop (attempts : list nat) : M DB unit :=
  match attempts with
  | [] =>
      logger CRITICAL
        "🔥 Could not connect to the database after retries. Exiting." ;;
      raise (RuntimeError "Database connection failed")
  | attempt :: rest =>
      try_except
        (logger INFO
           ("Attempting DB connection (attempt "
              ++ str_of_int (Z.of_nat attempt) ++ "/"
              ++ str_of_int (Z.of_nat retries) ++ ")...") ;;
         await engine_begin_create_all ;;
         logger INFO "✅ Database tables created successfully.")
        (fun e =>
           (if is_not_ready e then
              logger WARNING
                ("⚠️ DB not ready: " ++ str_of_exn e ++ ". Retrying in "
                   ++ str_of_int delay ++ "s...")
            else
              logger ERROR ("❌ Unexpected DB error: " ++ str_of_exn e)) ;;
           asyncio_sleep delay ;;
           startup_loop rest)
  end.

Definition lift {A} (r : result A) : M DB A :=
  match r with
  | Return a => ret a
  | Raise e => raise e
  end.

Definition startup_event : M DB unit :=
  let db_url := DATABASE_URL settings in
  parsed_url <- lift (urlparse db_url) ;;
  parsed_port <- lift (port parsed_url) ;;
  logger INFO
    ("Connecting to DB at "
       ++ str_of_option (fun s => s) (hostname parsed_url) ++ ":"
       ++ str_of_option str_of_int parsed_port ++ "...") ;;
  startup_loop (seq 1 retries).

(** *** Task routes *)

Definition create_task (task : TaskCreate.t) (user_id : Z) : M DB Task.t :=
  try_except
    (db_task <- await (crud_create_task task user_id) ;;
     logger INFO
       ("Task created: " ++ str_of_int (Task.id db_task)
          ++ " for user " ++ str_of_int user_id) ;;
     ret db_task)
    (fun e =>
       logger ERROR ("Create task error: " ++ str_of_exn e) ;;
       raise internal_server_error).

Definition get_tasks (skip limit : Z) (user_id : Z) : M DB (list Task.t) :=
  try_except
    (tasks <- await (crud_get_user_tasks user_id skip limit) ;;
     ret tasks)
    (fun e =>
       logger ERROR ("Get tasks error: " ++ str_of_exn e) ;;
       raise internal_server_error).

Definition get_task (task_id : Z) (user_id : Z) : M DB Task.t :=
  try_except
    (task <- await (crud_get_task task_id) ;;
     match task with
     | None => raise (HTTPException 404 "Task not found")
     | Some task =>
         if negb (Task.owner_id task =? user_id)%Z then
           raise (HTTPException 403 "Not authorized to access this task")
         else ret task
     end)
    (fun e =>
       if is_HTTPException e then raise e
       else
         logger ERROR ("Get task error: " ++ str_of_exn e) ;;
         raise internal_server_error).

Definition update_task (task_id : Z) (task_update : TaskUpdate.t)
    (user_id : Z) : M DB Task.t :=
  try_except
    (task <- await (crud_get_task task_id) ;;
     match task with
     | None => raise (HTTPException 404 "Task not found")
     | Some task =>
         if negb (Task.owner_id task =? user_id)%Z then
           raise (HTTPException 403 "Not authorized to update this task")
         else
           updated <- await (crud_update_task task_id task_update) ;;
           logger INFO ("Task updated: " ++ str_of_int task_id) ;;
           ret updated
     end)
    (fun e =>
       if is_HTTPException e then raise e
       else
         logger ERROR ("Update task error: " ++ str_of_exn e) ;;
         raise internal_server_error).

Definition delete_task (task_id : Z) (user_id : Z)
  : M DB (list (string * string)) :=
  try_except
    (task <- await (crud_get_task task_id) ;;
     match task with
     | None => raise (HTTPException 404 "Task not found")
     | Some task =>
         if negb (Task.owner_id task =? user_id)%Z then
           raise (HTTPException 403 "Not authorized to delete this task")
         else
           await (crud_delete_task task_id) ;;
           logger INFO ("Task deleted: " ++ str_of_int task_id) ;;
           ret [("message", "Task deleted successfully")]
     end)
    (fun e =>
       if is_HTTPException e then raise e
       else
         logger ERROR ("Delete task error: " ++ str_of_exn e) ;;
         raise internal_server_error).

(** *** Health *)

Definition health_check : M DB (list (string * string)) :=
  db_status <-
    try_except
      (await engine_connect_select_1 ;;
       ret "up")
      (fun e =>
         logger WARNING ("DB health check failed: " ++ str_of_exn e) ;;
         ret "down") ;;
  ret [("status", "healthy");
       ("database", db_status);
       ("service", "task-service")].

End Handlers.

(** ** Responses *)

(** What the framework sends for a handler's outcome: 200 and the returned
    body, the status and detail of a raised [HTTPException], and a bare 500
    for any other exception that escapes the handler. *)
Inductive response (A : Type) : Type :=
| Ok200 (body : A)
| Error (status_code : Z) (detail : string).
Arguments Ok200 {A} body.
Arguments Error {A} status_code detail.

Definition respond {A} (r : result A) : response A :=
  match r with
  | Return a => Ok200 a
  | Raise (HTTPException s d) => Error s d
  | Raise _ => Error 500 "Internal Server Error"
  end.

Definition status_of {A} (r : response A) : Z :=
  match r with
  | Ok200 _ => 200
  | Error s _ => s
  end.

(** A request: resolve the dependencies, run the handler, send the
    response. *)
Definition serve {DB A} (c : M DB A) (w : world DB) : response A * world DB :=
  let (r, w') := c w in (respond r, w').

(** [d[key]] on a JSON object body. *)
Fixpoint field (key : string) (d : list (string * string)) : option string :=
  match d with
  | [] => None
  | (k, v) :: d' => if String.eqb k key then Some v else field key d'
  end.

(** ** The HTTP surface *)

Section Endpoints.

Context {DB : Type} `{Persistence DB}.

(** [POST /tasks] *)
Definition POST_tasks (x_user_id : option string) (task : TaskCreate.t) :=
  serve (Depends x_user_id (create_task task)).

(** [GET /tasks?skip&limit] *)
Definition GET_tasks (x_user_id : option string) (skip limit : Z) :=
  serve (Depends x_user_id (get_tasks skip limit)).

(** [GET /tasks/{task_id}] *)
Definition GET_task (x_user_id : option string) (task_id : Z) :=
  serve (Depends x_user_id (get_task task_id)).

(** [PUT /tasks/{task_id}] *)
Definition PUT_task (x_user_id : option string) (task_id : Z)
    (task_update : TaskUpdate.t) :=
  serve (Depends x_user_id (update_task task_id task_update)).

(** [DELETE /tasks/{task_id}] *)
Definition DELETE_task (x_user_id : option string) (task_id : Z) :=
  serve (Depends x_user_id (delete_task task_id)).

(** [GET /health] *)
Definition GET_health := serve (DB := DB) health_check.

End Endpoints.

(** ** A table of tasks *)

Module Store.

(** Modelled from the spec: [crud.py] and [database.py] are absent.  The
    persistence layer keeps one table of task rows and assigns each new
    row the next value of a sequence as its [id]. *)
Record t : Type := mk {
  rows : list Task.t;
  next_id : Z
}.

Definition empty : t := {| rows := []; next_id := 1 |}.

Definition has_id (task_id : Z) (r : Task.t) : bool :=
  (Task.id r =? task_id)%Z.

Definition owned_by (user_id : Z) (r : Task.t) : bool :=
  (Task.owner_id r =? user_id)%Z.

(** Modelled from the spec: [crud.get_task] is absent; it fetches the
    referenced task, or nothing when no row has that id. *)
Definition get_task (task_id : Z) (s : t) : result (option Task.t) * t :=
  (Return (find (has_id task_id) (rows s)), s).

(** Modelled from the spec: [crud.create_task] is absent; it stores the
    payload's fields under a generated id with the caller as owner and
    returns the created task. *)
Definition create_task (task : TaskCreate.t) (user_id : Z) (s : t)
  : result Task.t * t :=
  let db_task :=
    {| Task.id := next_id s;
       Task.owner_id := user_id;
       Task.title := TaskCreate.title task;
       Task.description := TaskCreate.description task;
       Task.status := TaskCreate.status task |} in
  (Return db_task,
   {| rows := rows s ++ [db_task]; next_id := next_id s + 1 |}).

(** Modelled from the spec: [crud.get_user_tasks] is absent; it returns
    the tasks owned by the caller only, in table order, sliced by skip and
    limit.  The spec leaves a negative skip or limit open; here the
    database rejects the query, as PostgreSQL does a negative OFFSET or
    LIMIT. *)
Definition get_user_tasks (user_id skip limit : Z) (s : t)
  : result (list Task.t) * t :=
  if ((skip <? 0) || (limit <? 0))%Z then
    (Raise (OtherException "DBAPIError"
              "OFFSET and LIMIT must not be negative"), s)
  else
    (Return (firstn (Z.to_nat limit)
               (skipn (Z.to_nat skip)
                  (filter (owned_by user_id) (rows s)))), s).

Definition supplied {A} (new : option A) (old : A) : A :=
  match new with
  | Some a => a
  | None => old
  end.

(** The row after a partial update: a supplied field takes the payload's
    value, any other field keeps its own. *)
Definition apply_update (task_update : TaskUpdate.t) (r : Task.t) : Task.t :=
  {| Task.id := Task.id r;
     Task.owner_id := Task.owner_id r;
     Task.title := supplied (TaskUpdate.title task_update) (Task.title r);
     Task.description :=
       match TaskUpdate.description task_update with
       | Some d => Some d
       | None => Task.description r
       end;
     Task.status :=
       supplied (TaskUpdate.status task_update) (Task.status r) |}.

(** Modelled from the spec: [crud.update_task] is absent; it applies the
    partial update to the referenced row and returns the updated task.
    The spec leaves an id without a row open (the handler looks the task
    up first); here the persistence layer raises. *)
Definition update_task (task_id : Z) (task_update : TaskUpdate.t) (s : t)
  : result Task.t * t :=
  match find (has_id task_id) (rows s) with
  | None => (Raise (OtherException "NoResultFound" "No row was found"), s)
  | Some r =>
      (Return (apply_update task_update r),
       {| rows :=
            map (fun r' =>
                   if has_id task_id r' then apply_update task_update r'
                   else r')
              (rows s);
          next_id := next_id s |})
  end.

(** Modelled from the spec: [crud.delete_task] is absent; it removes the
    referenced row. *)
Definition delete_task (task_id : Z) (s : t) : result unit * t :=
  (Return tt,
   {| rows := filter (fun r => negb (has_id task_id r)) (rows s);
      next_id := next_id s |}).

(** Modelled from the spec: [database.py] is absent; this database is
    reachable, so schema creation and the connectivity probe succeed. *)
Definition begin_create_all (s : t) : result unit * t := (Return tt, s).
Definition connect_select_1 (s : t) : result unit * t := (Return tt, s).

#[global] Instance persistence : Persistence t := {|
  crud_create_task := create_task;
  crud_get_user_tasks := get_user_tasks;
  crud_get_task := get_task;
  crud_update_task := update_task;
  crud_delete_task := delete_task;
  engine_begin_create_all := begin_create_all;
  engine_connect_select_1 := connect_select_1
|}.

(** Ids are unique, and the sequence is ahead of every id in use. *)
Definition wf (s : t) : Prop :=
  NoDup (map Task.id (rows s))
  /\ Forall (fun r => Task.id r < next_id s) (rows s).

End Store.

(** ** A database behind an unreliable connection *)

Module Flaky.

(** The table of [Store] behind a connection that is refused for the next
    [down_for] operations: each of those raises and leaves the table
    alone; once the countdown is over every operation reaches the
    table. *)
Record t : Type := mk {
  down_for : nat;
  store : Store.t
}.

Definition refused : exn :=
  ConnectionRefusedError
    "[Errno 111] Connect call failed ('10.0.0.7', 5432)".

Definition via {A} (op : Store.t -> result A * Store.t) (s : t)
  : result A * t :=
  match down_for s with
  | O =>
      let (r, st) := op (store s) in
      (r, {| down_for := O; store := st |})
  | S n => (Raise refused, {| down_for := n; store := store s |})
  end.

#[global] Instance persistence : Persistence t := {|
  crud_create_task := fun task user_id => via (Store.create_task task user_id);
  crud_get_user_tasks :=
    fun user_id skip limit => via (Store.get_user_tasks user_id skip limit);
  crud_get_task := fun task_id => via (Store.get_task task_id);
  crud_update_task :=
    fun task_id task_update => via (Store.update_task task_id task_update);
  crud_delete_task := fun task_id => via (Store.delete_task task_id);
  engine_begin_create_all := via Store.begin_create_all;
  engine_connect_select_1 := via Store.connect_select_1
|}.

End Flaky.

(** ** Reading a startup trace *)

(** The delays of the trace, in order. *)
Fixpoint sleeps (evs : list event) : list Z :=
  match evs with
  | [] => []
  | Sleep seconds :: evs' => seconds :: sleeps evs'
  | Log _ _ :: evs' => sleeps evs'
  end.

(** [s.startswith(p)] *)
Fixpoint startswith (s p : string) {struct p} : bool :=
  match p with
  | EmptyString => true
  | String a p' =>
      match s with
      | EmptyString => false
      | String b s' => Ascii.eqb a b && startswith s' p'
      end
  end.

(** The record [startup_event] writes before each connection attempt. *)
Definition is_attempt (ev : event) : bool :=
  match ev with
  | Log INFO msg => startswith msg "Attempting DB connection (attempt "
  | _ => false
  end.

(** The number of connection attempts the trace announces. *)
Definition attempts_made (evs : list event) : nat :=
  List.length (filter is_attempt evs).

Definition fatal : exn := RuntimeError "Database connection failed".

(** The events of one failed attempt. *)
Definition failed_attempt (attempt : nat) (e : exn) : list event :=
  [Log INFO
     ("Attempting DB connection (attempt "
        ++ str_of_int (Z.of_nat attempt) ++ "/"
        ++ str_of_int (Z.of_nat retries) ++ ")...");
   (if is_not_ready e then
      Log WARNING
        ("⚠️ DB not ready: " ++ str_of_exn e ++ ". Retrying in "
           ++ str_of_int delay ++ "s...")
    else Log ERROR ("❌ Unexpected DB error: " ++ str_of_exn e));
   Sleep delay].

(** The events of a successful attempt. *)
Definition successful_attempt (attempt : nat) : list event :=
  [Log INFO
     ("Attempting DB connection (attempt "
        ++ str_of_int (Z.of_nat attempt) ++ "/"
        ++ str_of_int (Z.of_nat retries) ++ ")...");
   Log INFO "✅ Database tables created successfully."].

(** The record [startup_event] opens with. *)
Definition connecting (parsed_url : ParseResult) (parsed_port : option Z)
  : event :=
  Log INFO
    ("Connecting to DB at "
       ++ str_of_option (fun s => s) (hostname parsed_url) ++ ":"
       ++ str_of_option str_of_int parsed_port ++ "...").

Section Attempts.

Context {DB : Type} `{Persistence DB}.

(** [failing_attempts n d]: the database after [n] attempts at schema
    creation in a row from [d], when each of them raises (whatever the
    exception); [None] when one of them succeeds. *)
Fixpoint failing_attempts (n : nat) (d : DB) : option DB :=
  match n with
  | O => Some d
  | S n' =>
      match engine_begin_create_all d with
      | (Raise _, d') => failing_attempts n' d'
      | (Return _, _) => None
      end
  end.

End Attempts.

(** ** Reading a header value *)

(** The value of a decimal numeral read from its most significant digit,
    [acc] being the value of the digits already read. *)
Fixpoint read_uint (d : Decimal.uint) (acc : Z) : Z :=
  match d with
  | Decimal.Nil => acc
  | Decimal.D0 d => read_uint d (10 * acc + 0)
  | Decimal.D1 d => read_uint d (10 * acc + 1)
  | Decimal.D2 d => read_uint d (10 * acc + 2)
  | Decimal.D3 d => read_uint d (10 * acc + 3)
  | Decimal.D4 d => read_uint d (10 * acc + 4)
  | Decimal.D5 d => read_uint d (10 * acc + 5)
  | Decimal.D6 d => read_uint d (10 * acc + 6)
  | Decimal.D7 d => read_uint d (10 * acc + 7)
  | Decimal.D8 d => read_uint d (10 * acc + 8)
  | Decimal.D9 d => read_uint d (10 * acc + 9)
  end.

(** [all(f(c) for c in s)] *)
Fixpoint all_chars (f : ascii -> bool) (s : string) : bool :=
  match s with
  | EmptyString => true
  | String c s' => f c && all_chars f s'
  end.

Definition is_digit (c : ascii) : bool :=
  match PyInt.digit_value c with
  | Some _ => true
  | None => false
  end.

(** ["+"] or ["-"] *)
Definition is_sign (c : ascii) : bool :=
  ((PyInt.code c =? 43) || (PyInt.code c =? 45))%N.

(** The characters a string that [int] accepts is made of. *)
Definition numeric_char (c : ascii) : bool :=
  PyInt.is_space c || is_sign c || is_digit c || PyInt.is_underscore c.

(** The sign [int] reads after the leading blanks, and what follows it. *)
Definition split_sign (s : string) : bool * string :=
  match s with
  | String "-" r => (true, r)
  | String "+" r => (false, r)
  | _ => (false, s)
  end.

(** ** Reading a request trace *)

(** From [w] to [w'] the trace has only grown, by one log record at most,
    and nobody slept. *)
Definition quiet_step {DB} (w w' : world DB) : Prop :=
  exists evs,
    trace w' = (trace w ++ evs)%list
    /\ (List.length evs <= 1)%nat
    /\ sleeps evs = [].

(** Whatever [r] raises satisfies [ok]. *)
Definition raises_only {A} (ok : exn -> Prop) (r : result A) : Prop :=
  match r with
  | Return _ => True
  | Raise e => ok e
  end.

(** The record [startup_event] writes when the loop runs out. *)
Definition giving_up : event :=
  Log CRITICAL "🔥 Could not connect to the database after retries. Exiting.".

(** ** Sample data *)

Definition a_task : TaskCreate.t :=
  {| TaskCreate.title := "A";
     TaskCreate.description := None;
     TaskCreate.status := "open" |}.

Definition no_update : TaskUpdate.t :=
  {| TaskUpdate.title := None;
     TaskUpdate.description := None;
     TaskUpdate.status := None |}.

Definition fresh : world Store.t := {| db := Store.empty; trace := [] |}.

(** The world after user 1 has created [a_task] in an empty table. *)
Definition one_task : world Store.t := snd (create_task a_task 1 fresh).

(** [one_task] with that task removed again. *)
Definition task_removed : world Store.t :=
  with_db one_task (snd (Store.delete_task 1 (db one_task))).

(** The row [one_task] holds. *)
Definition task_1 : Task.t :=
  {| Task.id := 1;
     Task.owner_id := 1;
     Task.title := "A";
     Task.description := None;
     Task.status := "open" |}.

(** A payload that supplies the status only. *)
Definition close_it : TaskUpdate.t :=
  {| TaskUpdate.title := None;
     TaskUpdate.description := None;
     TaskUpdate.status := Some "done" |}.

(** A deployment's settings, and a [urlparse] that splits its URL. *)
Definition sample_settings : Settings :=
  {| DATABASE_URL := "postgresql+asyncpg://tasks:secret@db:5432/tasks";
     jwt_secret_key := "secret";
     jwt_algorithm := "HS256";
     service_name := "task-service";
     service_port := 8000;
     log_level := "INFO";
     db_pool_size := 5;
     db_max_overflow := 10 |}.

Definition sample_urlparse (url : string) : result ParseResult :=
  Return {| hostname := Some "db"; port := Return (Some 5432) |}.

(** A [urlparse] for a URL whose port is not a number: reading [port]
    raises. *)
Definition bad_port_urlparse (url : string) : result ParseResult :=
  Return
    {| hostname := Some "db";
       port :=
         Raise (ValueError "Port could not be cast to integer value as 'abc'")
    |}.

(** A world whose database refuses the next [n] operations. *)
Definition unreachable (n : nat) : world Flaky.t :=
  {| db := {| Flaky.down_for := n; Flaky.store := Store.empty |};
     trace := [] |}.

(** * Properties *)

(** ** The builtin [int] *)

Example int_plain : PyInt.int "42" = Some 42.
Proof. reflexivity. Qed.
Example int_signed_padded : PyInt.int "  -1_000 " = Some (-1000).
Proof. reflexivity. Qed.
Example int_empty : PyInt.int "" = None.
Proof. reflexivity. Qed.
Example int_word : PyInt.int "abc" = None.
Proof. reflexivity. Qed.
Example int_float : PyInt.int "1.5" = None.
Proof. reflexivity. Qed.
Example int_trailing_underscore : PyInt.int "1_" = None.
Proof. reflexivity. Qed.
Example int_blank : PyInt.int " " = None.
Proof. reflexivity. Qed.
Example str_of_int_neg : str_of_int (-12) = "-12".
Proof. reflexivity. Qed.
Example str_of_int_zero : str_of_int 0 = "0".
Proof. reflexivity. Qed.

(** ** Identity extraction *)

Lemma get_user_id_from_header_cases (x_user_id : option string) :
  match get_user_id_from_header x_user_id with
  | Return n => exists s, x_user_id = Some s /\ PyInt.int s = Some n
  | Raise e => e = unauthorized \/ e = bad_request
  end.
Proof.
  destruct x_user_id as [[|c s]|]; simpl; auto.
  destruct (PyInt.int (String c s)) eqn:E; eauto.
Qed.

Section DependsFacts.

Context {DB : Type} `{Persistence DB}.

Lemma Depends_Return {A} x_user_id user_id (handler : Z -> M DB A) :
  get_user_id_from_header x_user_id = Return user_id ->
  Depends x_user_id handler = handler user_id.
Proof. unfold Depends. intros ->. reflexivity. Qed.

Lemma Depends_Raise {A} x_user_id e (handler : Z -> M DB A) w :
  get_user_id_from_header x_user_id = Raise e ->
  serve (Depends x_user_id handler) w = (respond (Raise e), w).
Proof. unfold serve, Depends. intros ->. reflexivity. Qed.

End DependsFacts.

(** C3 (as amended).  An absent or empty [X-User-Id] header is answered
    with 401; a header that is not empty and that [int] rejects is answered
    with 400; otherwise the extractor returns the parsed integer.  On every
    [/tasks] route a failed extraction is the response, and the database and
    the trace are left as they were. *)
Theorem identity_extraction :
  forall (x_user_id : option string),
    (x_user_id = None \/ x_user_id = Some "" ->
     get_user_id_from_header x_user_id = Raise unauthorized)
    /\ (forall s, x_user_id = Some s -> s <> "" -> PyInt.int s = None ->
        get_user_id_from_header x_user_id = Raise bad_request)
    /\ (forall s n, x_user_id = Some s -> PyInt.int s = Some n ->
        get_user_id_from_header x_user_id = Return n)
    /\ (forall e, get_user_id_from_header x_user_id = Raise e ->
        forall DB (P : Persistence DB) (w : world DB) task skip limit
               task_id task_update,
          POST_tasks x_user_id task w = (respond (Raise e), w)
          /\ GET_tasks x_user_id skip limit w = (respond (Raise e), w)
          /\ GET_task x_user_id task_id w = (respond (Raise e), w)
          /\ PUT_task x_user_id task_id task_update w = (respond (Raise e), w)
          /\ DELETE_task x_user_id task_id w = (respond (Raise e), w)).
Proof.
  intros x. repeat split.
  - intros [-> | ->]; reflexivity.
  - intros s -> Hne Hint. destruct s as [|c s]; [congruence|].
    simpl. rewrite Hint. reflexivity.
  - intros s n -> Hint. destruct s as [|c s]; [discriminate Hint|].
    simpl. rewrite Hint. reflexivity.
  - apply Depends_Raise; assumption.
  - apply Depends_Raise; assumption.
  - apply Depends_Raise; assumption.
  - apply Depends_Raise; assumption.
  - apply Depends_Raise; assumption.
Qed.

Lemma identity_extraction_witness :
  get_user_id_from_header None = Raise unauthorized
  /\ get_user_id_from_header (Some "abc") = Raise bad_request
  /\ get_user_id_from_header (Some " 42") = Return 42
  /\ GET_task (Some "abc") 7 fresh = (Error 400 "Invalid user ID", fresh).
Proof.
  destruct (identity_extraction None) as (H1 & _).
  destruct (identity_extraction (Some "abc")) as (_ & H2 & _ & H4).
  destruct (identity_extraction (Some " 42")) as (_ & _ & H3 & _).
  split; [apply H1; left; reflexivity|].
  split; [apply (H2 "abc"); [reflexivity|discriminate|reflexivity]|].
  split; [apply (H3 " 42"); reflexivity|].
  apply (H4 bad_request (H2 "abc" eq_refl ltac:(discriminate) eq_refl)
            Store.t Store.persistence fresh a_task 0 100 7 no_update).
Defined.

(** The header is present, [int] rejects its value, and the answer is 401,
    not 400. *)
Lemma empty_header_is_not_bad_request :
  PyInt.int "" = None
  /\ get_user_id_from_header (Some "") = Raise unauthorized
  /\ get_user_id_from_header (Some "") <> Raise bad_request.
Proof. repeat split. discriminate. Qed.

(** C9.  A present but empty [X-User-Id] header gets the answer of an
    absent one, 401, on every [/tasks] route, and not the 400 of a
    malformed value. *)
Theorem empty_header_unauthorized :
  get_user_id_from_header (Some "") = get_user_id_from_header None
  /\ get_user_id_from_header (Some "") = Raise unauthorized
  /\ get_user_id_from_header (Some "") <> Raise bad_request
  /\ forall DB (P : Persistence DB) (w : world DB) task skip limit
            task_id task_update,
       POST_tasks (Some "") task w = (Error 401 "User ID not provided", w)
       /\ GET_tasks (Some "") skip limit w
          = (Error 401 "User ID not provided", w)
       /\ GET_task (Some "") task_id w = (Error 401 "User ID not provided", w)
       /\ PUT_task (Some "") task_id task_update w
          = (Error 401 "User ID not provided", w)
       /\ DELETE_task (Some "") task_id w
          = (Error 401 "User ID not provided", w).
Proof.
  split; [reflexivity|]. split; [reflexivity|]. split; [discriminate|].
  intros. repeat split.
Qed.

(** ** Running a handler *)

Ltac unfold_routes :=
  unfold POST_tasks, GET_tasks, GET_task, PUT_task, DELETE_task, GET_health,
    serve.

Ltac unfold_handlers :=
  unfold create_task, get_tasks, get_task, update_task, delete_task,
    health_check.

Ltac unfold_monad :=
  unfold try_except, bind, await, raise, ret, logger, asyncio_sleep, emit.

(** Evaluate a handler along the outcomes recorded in the hypotheses. *)
Ltac run :=
  unfold_handlers; unfold_monad; simpl;
  repeat match goal with
    | E : ?op = (_, _) |- context [?op] => rewrite E; simpl
    | E : ?b = _ |- context [if ?b then _ else _] => rewrite E; simpl
    end.

Section HandlerFacts.

Context {DB : Type} `{Persistence DB}.

Implicit Types (w : world DB) (d : DB) (e : exn).

Lemma owner_mismatch (t : Task.t) user_id :
  Task.owner_id t <> user_id ->
  negb (Task.owner_id t =? user_id)%Z = true.
Proof. intros Hne. apply negb_true_iff, Z.eqb_neq, Hne. Qed.

Lemma owner_match (t : Task.t) user_id :
  Task.owner_id t = user_id ->
  negb (Task.owner_id t =? user_id)%Z = false.
Proof. intros ->. rewrite Z.eqb_refl. reflexivity. Qed.

(** *** Lookup fails: no row *)

Lemma get_task_404 w task_id user_id d :
  crud_get_task task_id (db w) = (Return None, d) ->
  get_task task_id user_id w
  = (Raise (HTTPException 404 "Task not found"), with_db w d).
Proof. intros E. run. reflexivity. Qed.

Lemma update_task_404 w task_id task_update user_id d :
  crud_get_task task_id (db w) = (Return None, d) ->
  update_task task_id task_update user_id w
  = (Raise (HTTPException 404 "Task not found"), with_db w d).
Proof. intros E. run. reflexivity. Qed.

Lemma delete_task_404 w task_id user_id d :
  crud_get_task task_id (db w) = (Return None, d) ->
  delete_task task_id user_id w
  = (Raise (HTTPException 404 "Task not found"), with_db w d).
Proof. intros E. run. reflexivity. Qed.

(** *** Lookup succeeds: somebody else's row *)

Lemma get_task_403 w task_id user_id t d :
  crud_get_task task_id (db w) = (Return (Some t), d) ->
  Task.owner_id t <> user_id ->
  get_task task_id user_id w
  = (Raise (HTTPException 403 "Not authorized to access this task"),
     with_db w d).
Proof. intros E Hne%owner_mismatch. run. reflexivity. Qed.

Lemma update_task_403 w task_id task_update user_id t d :
  crud_get_task task_id (db w) = (Return (Some t), d) ->
  Task.owner_id t <> user_id ->
  update_task task_id task_update user_id w
  = (Raise (HTTPException 403 "Not authorized to update this task"),
     with_db w d).
Proof. intros E Hne%owner_mismatch. run. reflexivity. Qed.

Lemma delete_task_403 w task_id user_id t d :
  crud_get_task task_id (db w) = (Return (Some t), d) ->
  Task.owner_id t <> user_id ->
  delete_task task_id user_id w
  = (Raise (HTTPException 403 "Not authorized to delete this task"),
     with_db w d).
Proof. intros E Hne%owner_mismatch. run. reflexivity. Qed.

(** *** Lookup succeeds: the caller's row *)

Lemma get_task_200 w task_id user_id t d :
  crud_get_task task_id (db w) = (Return (Some t), d) ->
  Task.owner_id t = user_id ->
  get_task task_id user_id w = (Return t, with_db w d).
Proof. intros E Heq%owner_match. run. reflexivity. Qed.

Lemma update_task_200 w task_id task_update user_id t d updated d' :
  crud_get_task task_id (db w) = (Return (Some t), d) ->
  Task.owner_id t = user_id ->
  crud_update_task task_id task_update d = (Return updated, d') ->
  update_task task_id task_update user_id w
  = (Return updated,
     logged w d' INFO ("Task updated: " ++ str_of_int task_id)).
Proof. intros E Heq%owner_match E'. run. reflexivity. Qed.

Lemma delete_task_200 w task_id user_id t d d' :
  crud_get_task task_id (db w) = (Return (Some t), d) ->
  Task.owner_id t = user_id ->
  crud_delete_task task_id d = (Return tt, d') ->
  delete_task task_id user_id w
  = (Return [("message", "Task deleted successfully")],
     logged w d' INFO ("Task deleted: " ++ str_of_int task_id)).
Proof. intros E Heq%owner_match E'. run. reflexivity. Qed.

(** *** The persistence layer raises *)

Lemma get_task_500 w task_id user_id e d :
  crud_get_task task_id (db w) = (Raise e, d) ->
  is_HTTPException e = false ->
  get_task task_id user_id w
  = (Raise internal_server_error,
     logged w d ERROR ("Get task error: " ++ str_of_exn e)).
Proof. intros E Hn. run. reflexivity. Qed.

Lemma update_task_500_lookup w task_id task_update user_id e d :
  crud_get_task task_id (db w) = (Raise e, d) ->
  is_HTTPException e = false ->
  update_task task_id task_update user_id w
  = (Raise internal_server_error,
     logged w d ERROR ("Update task error: " ++ str_of_exn e)).
Proof. intros E Hn. run. reflexivity. Qed.

Lemma delete_task_500_lookup w task_id user_id e d :
  crud_get_task task_id (db w) = (Raise e, d) ->
  is_HTTPException e = false ->
  delete_task task_id user_id w
  = (Raise internal_server_error,
     logged w d ERROR ("Delete task error: " ++ str_of_exn e)).
Proof. intros E Hn. run. reflexivity. Qed.

Lemma update_task_500 w task_id task_update user_id t d e d' :
  crud_get_task task_id (db w) = (Return (Some t), d) ->
  Task.owner_id t = user_id ->
  crud_update_task task_id task_update d = (Raise e, d') ->
  is_HTTPException e = false ->
  update_task task_id task_update user_id w
  = (Raise internal_server_error,
     logged w d' ERROR ("Update task error: " ++ str_of_exn e)).
Proof. intros E Heq%owner_match E' Hn. run. reflexivity. Qed.

Lemma delete_task_500 w task_id user_id t d e d' :
  crud_get_task task_id (db w) = (Return (Some t), d) ->
  Task.owner_id t = user_id ->
  crud_delete_task task_id d = (Raise e, d') ->
  is_HTTPException e = false ->
  delete_task task_id user_id w
  = (Raise internal_server_error,
     logged w d' ERROR ("Delete task error: " ++ str_of_exn e)).
Proof. intros E Heq%owner_match E' Hn. run. reflexivity. Qed.

(** *** The persistence layer raises an [HTTPException] of its own *)

Lemma get_task_reraise w task_id user_id s dt d :
  crud_get_task task_id (db w) = (Raise (HTTPException s dt), d) ->
  get_task task_id user_id w = (Raise (HTTPException s dt), with_db w d).
Proof. intros E. run. reflexivity. Qed.

Lemma update_task_reraise_lookup w task_id task_update user_id s dt d :
  crud_get_task task_id (db w) = (Raise (HTTPException s dt), d) ->
  update_task task_id task_update user_id w
  = (Raise (HTTPException s dt), with_db w d).
Proof. intros E. run. reflexivity. Qed.

Lemma delete_task_reraise_lookup w task_id user_id s dt d :
  crud_get_task task_id (db w) = (Raise (HTTPException s dt), d) ->
  delete_task task_id user_id w = (Raise (HTTPException s dt), with_db w d).
Proof. intros E. run. reflexivity. Qed.

Lemma update_task_reraise w task_id task_update user_id t d s dt d' :
  crud_get_task task_id (db w) = (Return (Some t), d) ->
  Task.owner_id t = user_id ->
  crud_update_task task_id task_update d
  = (Raise (HTTPException s dt), d') ->
  update_task task_id task_update user_id w
  = (Raise (HTTPException s dt), with_db w d').
Proof. intros E Heq%owner_match E'. run. reflexivity. Qed.

Lemma delete_task_reraise w task_id user_id t d s dt d' :
  crud_get_task task_id (db w) = (Return (Some t), d) ->
  Task.owner_id t = user_id ->
  crud_delete_task task_id d = (Raise (HTTPException s dt), d') ->
  delete_task task_id user_id w
  = (Raise (HTTPException s dt), with_db w d').
Proof. intros E Heq%owner_match E'. run. reflexivity. Qed.

(** *** From handlers to responses *)

Lemma serve_Depends {A} x_user_id user_id (handler : Z -> M DB A) w r w' :
  get_user_id_from_header x_user_id = Return user_id ->
  handler user_id w = (r, w') ->
  serve (Depends x_user_id handler) w = (respond r, w').
Proof.
  intros Hid Hrun. rewrite (Depends_Return _ _ Hid).
  unfold serve. rewrite Hrun. reflexivity.
Qed.

End HandlerFacts.

(** ** Not found before forbidden *)

(** C2.  When the lookup finds no row for the task id, the get-one, update
    and delete handlers raise 404 "Task not found" for every caller
    identity: the test for a missing row comes before the owner comparison,
    so the answer for an id without a row is never 403. *)
Theorem not_found_precedes_ownership :
  forall DB (P : Persistence DB) (w : world DB) task_id d,
    crud_get_task task_id (db w) = (Return None, d) ->
    forall user_id task_update,
      let not_found := HTTPException 404 "Task not found" in
      get_task task_id user_id w = (Raise not_found, with_db w d)
      /\ update_task task_id task_update user_id w
         = (Raise not_found, with_db w d)
      /\ delete_task task_id user_id w = (Raise not_found, with_db w d)
      /\ forall x_user_id,
           get_user_id_from_header x_user_id = Return user_id ->
           GET_task x_user_id task_id w
           = (Error 404 "Task not found", with_db w d)
           /\ PUT_task x_user_id task_id task_update w
              = (Error 404 "Task not found", with_db w d)
           /\ DELETE_task x_user_id task_id w
              = (Error 404 "Task not found", with_db w d).
Proof.
  intros DB P w task_id d E user_id task_update not_found.
  pose proof (get_task_404 w task_id user_id E) as Hg.
  pose proof (update_task_404 w task_id task_update user_id E) as Hu.
  pose proof (delete_task_404 w task_id user_id E) as Hd.
  split; [exact Hg|]. split; [exact Hu|]. split; [exact Hd|].
  intros x_user_id Hid. repeat split.
  - apply (serve_Depends _ _ _ Hid Hg).
  - apply (serve_Depends _ _ _ Hid Hu).
  - apply (serve_Depends _ _ _ Hid Hd).
Qed.

Lemma not_found_precedes_ownership_witness :
  DELETE_task (Some "2") 999 one_task
  = (Error 404 "Task not found", one_task)
  /\ DELETE_task (Some "1") 999 one_task
     = (Error 404 "Task not found", one_task).
Proof.
  split.
  - apply (not_found_precedes_ownership Store.persistence one_task 999
             (d := db one_task) eq_refl 2 no_update).
    reflexivity.
  - apply (not_found_precedes_ownership Store.persistence one_task 999
             (d := db one_task) eq_refl 1 no_update).
    reflexivity.
Defined.

(** ** Error propagation *)

(** C4.  On the single-item routes: a 401 or 400 of the identity extractor
    and the 404 and 403 of the lookup and owner checks reach the client with
    their own status and detail, as does any [HTTPException] the persistence
    layer raises; every other exception raised by the lookup, the update or
    the delete is caught in the handler, its text goes to the log, and the
    client gets 500 "Internal server error" whatever the exception was. *)
Theorem error_propagation :
  forall DB (P : Persistence DB) (w : world DB) x_user_id task_id task_update,
    (forall e,
        get_user_id_from_header x_user_id = Raise e ->
        (e = unauthorized \/ e = bad_request)
        /\ GET_task x_user_id task_id w = (respond (Raise e), w)
        /\ PUT_task x_user_id task_id task_update w = (respond (Raise e), w)
        /\ DELETE_task x_user_id task_id w = (respond (Raise e), w))
    /\ (forall user_id,
           get_user_id_from_header x_user_id = Return user_id ->
           (forall d,
               crud_get_task task_id (db w) = (Return None, d) ->
               GET_task x_user_id task_id w
               = (Error 404 "Task not found", with_db w d)
               /\ PUT_task x_user_id task_id task_update w
                  = (Error 404 "Task not found", with_db w d)
               /\ DELETE_task x_user_id task_id w
                  = (Error 404 "Task not found", with_db w d))
           /\ (forall t d,
                  crud_get_task task_id (db w) = (Return (Some t), d) ->
                  Task.owner_id t <> user_id ->
                  GET_task x_user_id task_id w
                  = (Error 403 "Not authorized to access this task",
                     with_db w d)
                  /\ PUT_task x_user_id task_id task_update w
                     = (Error 403 "Not authorized to update this task",
                        with_db w d)
                  /\ DELETE_task x_user_id task_id w
                     = (Error 403 "Not authorized to delete this task",
                        with_db w d))
           /\ (forall s dt d,
                  crud_get_task task_id (db w)
                  = (Raise (HTTPException s dt), d) ->
                  GET_task x_user_id task_id w = (Error s dt, with_db w d)
                  /\ PUT_task x_user_id task_id task_update w
                     = (Error s dt, with_db w d)
                  /\ DELETE_task x_user_id task_id w
                     = (Error s dt, with_db w d))
           /\ (forall e d,
                  crud_get_task task_id (db w) = (Raise e, d) ->
                  is_HTTPException e = false ->
                  GET_task x_user_id task_id w
                  = (Error 500 "Internal server error",
                     logged w d ERROR ("Get task error: " ++ str_of_exn e))
                  /\ PUT_task x_user_id task_id task_update w
                     = (Error 500 "Internal server error",
                        logged w d ERROR
                          ("Update task error: " ++ str_of_exn e))
                  /\ DELETE_task x_user_id task_id w
                     = (Error 500 "Internal server error",
                        logged w d ERROR
                          ("Delete task error: " ++ str_of_exn e)))
           /\ (forall t d e d',
                  crud_get_task task_id (db w) = (Return (Some t), d) ->
                  Task.owner_id t = user_id ->
                  is_HTTPException e = false ->
                  (crud_update_task task_id task_update d = (Raise e, d') ->
                   PUT_task x_user_id task_id task_update w
                   = (Error 500 "Internal server error",
                      logged w d' ERROR
                        ("Update task error: " ++ str_of_exn e)))
                  /\ (crud_delete_task task_id d = (Raise e, d') ->
                      DELETE_task x_user_id task_id w
                      = (Error 500 "Internal server error",
                         logged w d' ERROR
                           ("Delete task error: " ++ str_of_exn e))))).
Proof.
  intros DB P w x task_id task_update. split.
  - intros e He. split.
    + pose proof (get_user_id_from_header_cases x) as Hc.
      rewrite He in Hc. exact Hc.
    + repeat split; apply Depends_Raise; exact He.
  - intros user_id Hid.
    split; [|split; [|split; [|split]]].
    + intros d E. repeat split.
      * apply (serve_Depends _ _ _ Hid (get_task_404 w task_id user_id E)).
      * apply (serve_Depends _ _ _ Hid
                 (update_task_404 w task_id task_update user_id E)).
      * apply (serve_Depends _ _ _ Hid (delete_task_404 w task_id user_id E)).
    + intros t d E Hne. repeat split.
      * apply (serve_Depends _ _ _ Hid (get_task_403 w task_id E Hne)).
      * apply (serve_Depends _ _ _ Hid
                 (update_task_403 w task_id task_update E Hne)).
      * apply (serve_Depends _ _ _ Hid (delete_task_403 w task_id E Hne)).
    + intros s dt d E. repeat split.
      * apply (serve_Depends _ _ _ Hid (get_task_reraise w task_id user_id E)).
      * apply (serve_Depends _ _ _ Hid
                 (update_task_reraise_lookup w task_id task_update user_id E)).
      * apply (serve_Depends _ _ _ Hid
                 (delete_task_reraise_lookup w task_id user_id E)).
    + intros e d E Hn. repeat split.
      * apply (serve_Depends _ _ _ Hid (get_task_500 w task_id user_id E Hn)).
      * apply (serve_Depends _ _ _ Hid
                 (update_task_500_lookup w task_id task_update user_id E Hn)).
      * apply (serve_Depends _ _ _ Hid
                 (delete_task_500_lookup w task_id user_id E Hn)).
    + intros t d e d' E Heq Hn. split; intros E'.
      * apply (serve_Depends _ _ _ Hid
                 (update_task_500 w task_id task_update E Heq E' Hn)).
      * apply (serve_Depends _ _ _ Hid (delete_task_500 w task_id E Heq E' Hn)).
Qed.

Lemma error_propagation_witness :
  GET_task None 1 one_task = (Error 401 "User ID not provided", one_task)
  /\ PUT_task (Some "2") 999 no_update one_task
     = (Error 404 "Task not found", one_task)
  /\ DELETE_task (Some "2") 1 one_task
     = (Error 403 "Not authorized to delete this task", one_task)
  /\ GET_task (Some "1") 1 (unreachable 1)
     = (Error 500 "Internal server error",
        {| db := db (unreachable 0);
           trace :=
             [Log ERROR
                ("Get task error: " ++ str_of_exn Flaky.refused)]
        |}).
Proof.
  split; [|split; [|split]].
  - destruct (error_propagation Store.persistence one_task None 1 no_update)
      as (H & _).
    apply (H unauthorized eq_refl).
  - destruct (error_propagation Store.persistence one_task (Some "2") 999
                no_update) as (_ & H).
    destruct (H 2 eq_refl) as (H404 & _).
    apply (H404 (db one_task) eq_refl).
  - destruct (error_propagation Store.persistence one_task (Some "2") 1
                no_update) as (_ & H).
    destruct (H 2 eq_refl) as (_ & H403 & _).
    refine (proj2 (proj2 (H403 _ (db one_task) eq_refl _))).
    discriminate.
  - destruct (error_propagation Flaky.persistence (unreachable 1) (Some "1") 1
                no_update) as (_ & H).
    destruct (H 1 eq_refl) as (_ & _ & _ & H500 & _).
    apply (H500 Flaky.refused (db (unreachable 0)) eq_refl eq_refl).
Defined.

(** ** Health *)

(** C6.  [/health] always answers 200; the body's "status" is "healthy";
    its "database" is "up" exactly when the connectivity probe returns and
    "down" exactly when the probe raises. *)
Theorem health_check_reports :
  forall DB (P : Persistence DB) (w : world DB),
  exists body w',
    GET_health w = (Ok200 body, w')
    /\ status_of (fst (GET_health w)) = 200
    /\ field "status" body = Some "healthy"
    /\ field "service" body = Some "task-service"
    /\ (field "database" body = Some "up"
        <-> exists d, engine_connect_select_1 (db w) = (Return tt, d))
    /\ (field "database" body = Some "down"
        <-> exists e d, engine_connect_select_1 (db w) = (Raise e, d)).
Proof.
  intros DB P w. unfold_routes. unfold_handlers. unfold_monad. simpl.
  destruct (engine_connect_select_1 (db w)) as [[[]|e] d] eqn:E; simpl.
  - eexists; eexists. split; [reflexivity|]. simpl.
    repeat split; try reflexivity.
    + intros _. exists d. reflexivity.
    + discriminate.
    + intros (e & d' & Hx). discriminate Hx.
  - eexists; eexists. split; [reflexivity|]. simpl.
    repeat split; try reflexivity.
    + discriminate.
    + intros (d' & Hx). discriminate Hx.
    + intros _. exists e, d. reflexivity.
Qed.

Example health_up :
  fst (GET_health fresh)
  = Ok200 [("status", "healthy"); ("database", "up");
           ("service", "task-service")].
Proof. reflexivity. Qed.

Example health_down :
  GET_health (unreachable 3)
  = (Ok200 [("status", "healthy"); ("database", "down");
            ("service", "task-service")],
     {| db := db (unreachable 2);
        trace :=
          [Log WARNING
             ("DB health check failed: " ++ str_of_exn Flaky.refused)]
     |}).
Proof. reflexivity. Qed.

(** ** Startup *)

Section StartupFacts.

Context {DB : Type} `{Persistence DB}.

Implicit Types (w : world DB) (d : DB) (evs : list event).

Lemma sleeps_app evs1 evs2 :
  sleeps (evs1 ++ evs2) = (sleeps evs1 ++ sleeps evs2)%list.
Proof.
  induction evs1 as [|[lvl msg|z] evs1 IH]; simpl; [reflexivity|exact IH|].
  rewrite IH. reflexivity.
Qed.

Lemma attempts_made_app evs1 evs2 :
  attempts_made (evs1 ++ evs2)
  = (attempts_made evs1 + attempts_made evs2)%nat.
Proof.
  unfold attempts_made. rewrite filter_app, List.length_app. reflexivity.
Qed.

Lemma failed_attempt_sleeps attempt e :
  sleeps (failed_attempt attempt e) = [delay].
Proof. unfold failed_attempt. destruct (is_not_ready e); reflexivity. Qed.

Lemma failed_attempt_made attempt e :
  attempts_made (failed_attempt attempt e) = 1%nat.
Proof.
  unfold failed_attempt, attempts_made.
  destruct (is_not_ready e); cbn; reflexivity.
Qed.

Lemma startup_loop_nil w :
  startup_loop [] w
  = (Raise fatal,
     logged w (db w) CRITICAL
       "🔥 Could not connect to the database after retries. Exiting.").
Proof. reflexivity. Qed.

Lemma startup_loop_success attempt rest w d :
  engine_begin_create_all (db w) = (Return tt, d) ->
  startup_loop (attempt :: rest) w
  = (Return tt,
     {| db := d; trace := trace w ++ successful_attempt attempt |}).
Proof.
  intros E. simpl. unfold_monad. simpl. rewrite E. simpl.
  rewrite <- !app_assoc. reflexivity.
Qed.

Lemma startup_loop_failure attempt rest w e d :
  engine_begin_create_all (db w) = (Raise e, d) ->
  startup_loop (attempt :: rest) w
  = startup_loop rest
      {| db := d; trace := trace w ++ failed_attempt attempt e |}.
Proof.
  intros E. simpl. unfold_monad. simpl. rewrite E. simpl.
  unfold failed_attempt.
  destruct (is_not_ready e); simpl; rewrite <- !app_assoc; reflexivity.
Qed.

Lemma failing_attempts_S n d e d1 :
  engine_begin_create_all d = (Raise e, d1) ->
  failing_attempts (S n) d = failing_attempts n d1.
Proof. intros E. simpl. rewrite E. reflexivity. Qed.

(** Every attempt fails: the loop runs out and raises. *)
Lemma startup_loop_exhausted attempts : forall w d,
  failing_attempts (List.length attempts) (db w) = Some d ->
  exists evs,
    startup_loop attempts w
    = (Raise fatal, {| db := d; trace := trace w ++ evs |})
    /\ sleeps evs = repeat delay (List.length attempts)
    /\ attempts_made evs = List.length attempts.
Proof.
  induction attempts as [|attempt rest IH]; intros w d Hfail.
  - injection Hfail as <-. rewrite startup_loop_nil. eexists.
    split; [reflexivity|]. split; reflexivity.
  - simpl in Hfail.
    destruct (engine_begin_create_all (db w)) as [[[]|e] d1] eqn:E;
      [discriminate Hfail|].
    rewrite (startup_loop_failure attempt rest w E).
    destruct (IH {| db := d1;
                    trace := trace w ++ failed_attempt attempt e |} d Hfail)
      as (evs & Hrun & Hs & Ha).
    exists (failed_attempt attempt e ++ evs)%list.
    simpl in Hrun. rewrite <- app_assoc in Hrun.
    split; [exact Hrun|]. split.
    + rewrite sleeps_app, failed_attempt_sleeps, Hs. reflexivity.
    + rewrite attempts_made_app, failed_attempt_made, Ha. reflexivity.
Qed.

(** [k] attempts fail and the next one succeeds: the loop stops there. *)
Lemma startup_loop_first_success k : forall attempts w d1 d2,
  (k < List.length attempts)%nat ->
  failing_attempts k (db w) = Some d1 ->
  engine_begin_create_all d1 = (Return tt, d2) ->
  exists evs,
    startup_loop attempts w
    = (Return tt, {| db := d2; trace := trace w ++ evs |})
    /\ sleeps evs = repeat delay k
    /\ attempts_made evs = S k.
Proof.
  induction k as [|k IH]; intros [|attempt rest] w d1 d2 Hlt Hfail Hok;
    simpl in Hlt; try lia.
  - injection Hfail as <-.
    rewrite (startup_loop_success attempt rest w Hok).
    eexists. split; [reflexivity|]. split; reflexivity.
  - simpl in Hfail.
    destruct (engine_begin_create_all (db w)) as [[[]|e] d] eqn:E;
      [discriminate Hfail|].
    rewrite (startup_loop_failure attempt rest w E).
    destruct (IH rest {| db := d;
                         trace := trace w ++ failed_attempt attempt e |}
                d1 d2 ltac:(lia) Hfail Hok)
      as (evs & Hrun & Hs & Ha).
    exists (failed_attempt attempt e ++ evs)%list.
    simpl in Hrun. rewrite <- app_assoc in Hrun.
    split; [exact Hrun|]. split.
    + rewrite sleeps_app, failed_attempt_sleeps, Hs. reflexivity.
    + rewrite attempts_made_app, failed_attempt_made, Ha. reflexivity.
Qed.

(** From any database, either the first [n] attempts all fail or one of
    them is the first to succeed. *)
Lemma attempts_dichotomy n : forall d,
  (exists d', failing_attempts n d = Some d')
  \/ (exists k d1 d2,
        (k < n)%nat
        /\ failing_attempts k d = Some d1
        /\ engine_begin_create_all d1 = (Return tt, d2)).
Proof.
  induction n as [|n IH]; intros d.
  - left. exists d. reflexivity.
  - destruct (engine_begin_create_all d) as [[[]|e] d1] eqn:E.
    + right. exists 0%nat, d, d1. split; [lia|]. split; [reflexivity|exact E].
    + destruct (IH d1) as [(d' & Hf) | (k & d2 & d3 & Hlt & Hf & Hok)].
      * left. exists d'. rewrite (failing_attempts_S n d E). exact Hf.
      * right. exists (S k), d2, d3. split; [lia|].
        rewrite (failing_attempts_S k d E). split; assumption.
Qed.

Lemma Forall_repeat {A} (a : A) n : Forall (eq a) (repeat a n).
Proof. induction n; simpl; constructor; auto. Qed.

End StartupFacts.

Section StartupEvent.

Context {DB : Type} `{Persistence DB}.
Variable settings : Settings.
Variable urlparse : string -> result ParseResult.

Lemma startup_event_parsed (w : world DB) parsed p :
  urlparse (DATABASE_URL settings) = Return parsed ->
  port parsed = Return p ->
  startup_event settings urlparse w
  = startup_loop (seq 1 retries)
      {| db := db w; trace := trace w ++ [connecting parsed p] |}.
Proof.
  intros Hurl Hport. unfold startup_event, bind at 1.
  rewrite Hurl. simpl. unfold bind at 1. rewrite Hport. reflexivity.
Qed.

Lemma startup_event_unparsed (w : world DB) :
  (forall parsed p,
      urlparse (DATABASE_URL settings) = Return parsed ->
      port parsed <> Return p) ->
  exists e, startup_event settings urlparse w = (Raise e, w).
Proof.
  intros Hbad. unfold startup_event, bind at 1.
  destruct (urlparse (DATABASE_URL settings)) as [parsed|e]; simpl.
  - unfold bind at 1.
    destruct (port parsed) as [p|e] eqn:Hport; simpl.
    + exfalso. exact (Hbad parsed p eq_refl Hport).
    + exists e. reflexivity.
  - exists e. reflexivity.
Qed.

End StartupEvent.

(** C5.  [startup_event] makes at most 10 attempts at connecting and
    creating the schema and sleeps 3 seconds after every failed one.  An
    attempt that raises, whatever the exception, is followed by the next
    one: when [k < 10] attempts fail and the next succeeds, startup returns
    after [k + 1] attempts and [k] delays, with the database as that
    attempt left it; when all 10 attempts fail, startup raises
    [RuntimeError] after 10 attempts and 10 delays. *)
Theorem startup_retry_policy :
  forall DB (P : Persistence DB) settings urlparse (w : world DB),
    (exists r d evs,
        startup_event settings urlparse w
        = (r, {| db := d; trace := trace w ++ evs |})
        /\ (attempts_made evs <= 10)%nat
        /\ Forall (eq 3) (sleeps evs))
    /\ forall parsed p,
         urlparse (DATABASE_URL settings) = Return parsed ->
         port parsed = Return p ->
         (forall k d1 d2,
             (k < 10)%nat ->
             failing_attempts k (db w) = Some d1 ->
             engine_begin_create_all d1 = (Return tt, d2) ->
             exists evs,
               startup_event settings urlparse w
               = (Return tt,
                  {| db := d2;
                     trace := trace w ++ connecting parsed p :: evs |})
               /\ sleeps evs = repeat 3 k
               /\ attempts_made evs = S k)
         /\ (forall d,
                failing_attempts 10 (db w) = Some d ->
                exists evs,
                  startup_event settings urlparse w
                  = (Raise fatal,
                     {| db := d;
                        trace := trace w ++ connecting parsed p :: evs |})
                  /\ sleeps evs = repeat 3 10
                  /\ attempts_made evs = 10%nat).
Proof.
  intros DB P settings urlparse w.
  assert (Hparsed : forall parsed p,
             urlparse (DATABASE_URL settings) = Return parsed ->
             port parsed = Return p ->
             (forall k d1 d2,
                 (k < 10)%nat ->
                 failing_attempts k (db w) = Some d1 ->
                 engine_begin_create_all d1 = (Return tt, d2) ->
                 exists evs,
                   startup_event settings urlparse w
                   = (Return tt,
                      {| db := d2;
                         trace := trace w ++ connecting parsed p :: evs |})
                   /\ sleeps evs = repeat 3 k
                   /\ attempts_made evs = S k)
             /\ (forall d,
                    failing_attempts 10 (db w) = Some d ->
                    exists evs,
                      startup_event settings urlparse w
                      = (Raise fatal,
                         {| db := d;
                            trace := trace w ++ connecting parsed p :: evs |})
                      /\ sleeps evs = repeat 3 10
                      /\ attempts_made evs = 10%nat)).
  { intros parsed p Hurl Hport.
    rewrite (startup_event_parsed settings urlparse w Hurl Hport).
    split.
    - intros k d1 d2 Hlt Hfail Hok.
      destruct (startup_loop_first_success (k := k) (seq 1 retries)
                  {| db := db w; trace := trace w ++ [connecting parsed p] |}
                  (d1 := d1) (d2 := d2))
        as (evs & Hrun & Hs & Ha);
        [rewrite length_seq; exact Hlt|exact Hfail|exact Hok|].
      exists evs. simpl in Hrun. rewrite <- app_assoc in Hrun.
      split; [exact Hrun|]. split; assumption.
    - intros d Hfail.
      destruct (startup_loop_exhausted (seq 1 retries)
                  {| db := db w; trace := trace w ++ [connecting parsed p] |}
                  (d := d))
        as (evs & Hrun & Hs & Ha);
        [rewrite length_seq; exact Hfail|].
      rewrite length_seq in Hs, Ha.
      exists evs. simpl in Hrun. rewrite <- app_assoc in Hrun.
      split; [exact Hrun|]. split; assumption. }
  split; [|exact Hparsed].
  destruct (urlparse (DATABASE_URL settings)) as [parsed|e0] eqn:Hurl.
  - destruct (port parsed) as [p|e0] eqn:Hport.
    + destruct (Hparsed parsed p eq_refl Hport) as (Hok & Hex).
      destruct (attempts_dichotomy 10 (db w))
        as [(d & Hfail) | (k & d1 & d2 & Hlt & Hfail & Hsucc)].
      * destruct (Hex d Hfail) as (evs & Hrun & Hs & Ha).
        exists (Raise fatal), d, (connecting parsed p :: evs).
        split; [exact Hrun|]. split.
        -- change (attempts_made (connecting parsed p :: evs))
             with (attempts_made evs). lia.
        -- change (sleeps (connecting parsed p :: evs)) with (sleeps evs).
           rewrite Hs. apply Forall_repeat.
      * destruct (Hok k d1 d2 Hlt Hfail Hsucc) as (evs & Hrun & Hs & Ha).
        exists (Return tt), d2, (connecting parsed p :: evs).
        split; [exact Hrun|]. split.
        -- change (attempts_made (connecting parsed p :: evs))
             with (attempts_made evs). lia.
        -- change (sleeps (connecting parsed p :: evs)) with (sleeps evs).
           rewrite Hs. apply Forall_repeat.
    + exists (Raise e0), (db w), [].
      unfold startup_event, bind at 1. rewrite Hurl. simpl.
      unfold bind at 1. rewrite Hport. simpl.
      rewrite app_nil_r. destruct w; simpl.
      split; [reflexivity|]. split; [exact (Nat.le_0_l 10)|constructor].
  - exists (Raise e0), (db w), [].
    unfold startup_event, bind at 1. rewrite Hurl. simpl.
    rewrite app_nil_r. destruct w; simpl.
    split; [reflexivity|]. split; [exact (Nat.le_0_l 10)|constructor].
Qed.

Lemma startup_retry_policy_witness :
  (fst (startup_event sample_settings sample_urlparse (unreachable 3))
   = Return tt
   /\ sleeps (trace (snd (startup_event sample_settings sample_urlparse
                            (unreachable 3))))
      = [3; 3; 3])
  /\ (fst (startup_event sample_settings sample_urlparse (unreachable 10))
      = Raise fatal
      /\ sleeps (trace (snd (startup_event sample_settings sample_urlparse
                               (unreachable 10))))
         = repeat 3 10).
Proof.
  split.
  - destruct (startup_retry_policy Flaky.persistence sample_settings
                sample_urlparse (unreachable 3)) as (_ & Hp).
    destruct (Hp _ _ eq_refl eq_refl) as (Hok & _).
    destruct (Hok 3%nat _ (db (unreachable 0)) ltac:(lia) eq_refl eq_refl)
      as (evs & Hrun & Hs & _).
    rewrite Hrun. split; [reflexivity|exact Hs].
  - destruct (startup_retry_policy Flaky.persistence sample_settings
                sample_urlparse (unreachable 10)) as (_ & Hp).
    destruct (Hp _ _ eq_refl eq_refl) as (_ & Hex).
    destruct (Hex (db (unreachable 0)) eq_refl) as (evs & Hrun & Hs & _).
    rewrite Hrun. split; [reflexivity|exact Hs].
Defined.

(** ** The table *)

Module StoreFacts.

Import Store.

Lemma has_id_true task_id r : has_id task_id r = true <-> Task.id r = task_id.
Proof. unfold has_id. apply Z.eqb_eq. Qed.

Lemma has_id_false task_id r :
  has_id task_id r = false <-> Task.id r <> task_id.
Proof. unfold has_id. apply Z.eqb_neq. Qed.

Lemma has_id_refl r : has_id (Task.id r) r = true.
Proof. apply has_id_true. reflexivity. Qed.

Lemma apply_update_id task_update r :
  Task.id (apply_update task_update r) = Task.id r.
Proof. reflexivity. Qed.

Lemma find_Some task_id l r :
  find (has_id task_id) l = Some r -> In r l /\ Task.id r = task_id.
Proof.
  intros [Hin Hid]%find_some. split; [exact Hin|]. apply has_id_true, Hid.
Qed.

Lemma find_None task_id l :
  find (has_id task_id) l = None
  <-> (forall r, In r l -> Task.id r <> task_id).
Proof.
  split.
  - intros Hnone r Hin. apply has_id_false. exact (find_none _ _ Hnone r Hin).
  - induction l as [|r l IH]; intros Hall; simpl; [reflexivity|].
    destruct (has_id task_id r) eqn:E.
    + apply has_id_true in E. exfalso.
      exact (Hall r (or_introl eq_refl) E).
    + apply IH. intros r' Hin. apply Hall. right. exact Hin.
Qed.

(** With unique ids, looking a row up by its id finds that row. *)
Lemma find_unique l : forall r,
  NoDup (map Task.id l) -> In r l -> find (has_id (Task.id r)) l = Some r.
Proof.
  induction l as [|r0 l IH]; intros r Hnd Hin; [contradiction|].
  simpl in Hnd. inversion Hnd as [|? ? Hnotin Hnd']; subst.
  simpl. destruct Hin as [-> | Hin].
  - rewrite has_id_refl. reflexivity.
  - destruct (has_id (Task.id r) r0) eqn:E.
    + apply has_id_true in E. exfalso. apply Hnotin.
      rewrite E. apply in_map. exact Hin.
    + apply IH; assumption.
Qed.

Lemma find_app task_id l1 l2 :
  find (has_id task_id) (l1 ++ l2)
  = match find (has_id task_id) l1 with
    | Some r => Some r
    | None => find (has_id task_id) l2
    end.
Proof.
  induction l1 as [|r l1 IH]; simpl; [reflexivity|].
  destruct (has_id task_id r); [reflexivity|exact IH].
Qed.

(** Updating the rows with id [task_id] updates what a lookup of
    [task_id] finds and nothing else. *)
Lemma find_updated task_id task_update l :
  find (has_id task_id)
    (map (fun r => if has_id task_id r then apply_update task_update r
                   else r) l)
  = option_map (apply_update task_update) (find (has_id task_id) l).
Proof.
  induction l as [|r l IH]; simpl; [reflexivity|].
  destruct (has_id task_id r) eqn:E.
  - unfold has_id in *. rewrite apply_update_id, E. reflexivity.
  - rewrite E. exact IH.
Qed.

Lemma find_not_updated task_id task_update other l :
  other <> task_id ->
  find (has_id other)
    (map (fun r => if has_id task_id r then apply_update task_update r
                   else r) l)
  = find (has_id other) l.
Proof.
  intros Hne. induction l as [|r l IH]; simpl; [reflexivity|].
  destruct (has_id task_id r) eqn:E.
  - apply has_id_true in E.
    assert (Hf : has_id other r = false) by (apply has_id_false; congruence).
    unfold has_id in *. rewrite apply_update_id, Hf. exact IH.
  - rewrite IH. reflexivity.
Qed.

Lemma ids_updated task_id task_update l :
  map Task.id
    (map (fun r => if has_id task_id r then apply_update task_update r
                   else r) l)
  = map Task.id l.
Proof.
  rewrite map_map. apply map_ext. intros r.
  destruct (has_id task_id r); reflexivity.
Qed.

Lemma NoDup_ids_filter (f : Task.t -> bool) l :
  NoDup (map Task.id l) -> NoDup (map Task.id (filter f l)).
Proof.
  induction l as [|r l IH]; simpl; intros Hnd; [constructor|].
  inversion Hnd as [|? ? Hnotin Hnd']; subst.
  destruct (f r); simpl; [|auto].
  constructor; [|auto].
  intros Hin. apply Hnotin.
  apply in_map_iff in Hin as (r' & Hid & Hin').
  apply filter_In in Hin' as [Hin' _].
  rewrite <- Hid. apply in_map. exact Hin'.
Qed.

Lemma In_slice {A} (x : A) skip limit l :
  In x (firstn limit (skipn skip l)) -> In x l.
Proof.
  intros Hin. rewrite <- (firstn_skipn skip l). apply in_or_app. right.
  rewrite <- (firstn_skipn limit (skipn skip l)). apply in_or_app. left.
  exact Hin.
Qed.

(** *** The invariant *)

Lemma wf_empty : wf empty.
Proof. split; constructor. Qed.

Lemma wf_create task user_id s :
  wf s -> wf (snd (create_task task user_id s)).
Proof.
  intros [Hnd Hlt]. split; simpl.
  - rewrite map_app. simpl.
    apply NoDup_app; [exact Hnd|repeat constructor; simpl; tauto|].
    intros i Hi [<- | []].
    apply in_map_iff in Hi as (r & Hid & Hin).
    rewrite Forall_forall in Hlt. specialize (Hlt r Hin). lia.
  - apply Forall_app. split.
    + eapply Forall_impl; [|exact Hlt]. simpl. intros r Hr. lia.
    + constructor; [simpl; lia|constructor].
Qed.

Lemma wf_update task_id task_update s :
  wf s -> wf (snd (update_task task_id task_update s)).
Proof.
  intros [Hnd Hlt]. unfold update_task.
  destruct (find (has_id task_id) (rows s)); [|split; assumption].
  split; simpl.
  - rewrite ids_updated. exact Hnd.
  - apply Forall_map. eapply Forall_impl; [|exact Hlt].
    simpl. intros r Hr. destruct (has_id task_id r); exact Hr.
Qed.

Lemma wf_delete task_id s : wf s -> wf (snd (delete_task task_id s)).
Proof.
  intros [Hnd Hlt]. split; simpl.
  - apply NoDup_ids_filter, Hnd.
  - apply incl_Forall with (l1 := rows s); [|exact Hlt].
    intros r Hin. apply filter_In in Hin. tauto.
Qed.

Lemma get_task_of_row s r :
  wf s -> In r (rows s) ->
  get_task (Task.id r) s = (Return (Some r), s).
Proof.
  intros [Hnd _] Hin. unfold get_task. rewrite find_unique by assumption.
  reflexivity.
Qed.

Lemma get_task_no_row s task_id :
  (forall r, In r (rows s) -> Task.id r <> task_id) ->
  get_task task_id s = (Return None, s).
Proof.
  intros Hall. unfold get_task. rewrite (proj2 (find_None task_id _) Hall).
  reflexivity.
Qed.

Lemma with_db_same (w : world Store.t) : with_db w (db w) = w.
Proof. destruct w. reflexivity. Qed.

End StoreFacts.

(** ** Ownership *)

Section Ownership.

Import Store StoreFacts.

Implicit Types (w : world Store.t) (t : Task.t).

Lemma lookup_row w t :
  wf (db w) -> In t (rows (db w)) ->
  crud_get_task (Task.id t) (db w) = (Return (Some t), db w).
Proof. intros Hwf Hin. exact (@get_task_of_row (db w) t Hwf Hin). Qed.

Lemma lookup_no_row w task_id :
  (forall r, In r (rows (db w)) -> Task.id r <> task_id) ->
  crud_get_task task_id (db w) = (Return None, db w).
Proof. intros Hall. exact (@get_task_no_row (db w) task_id Hall). Qed.

(** The list handler on the table: a rejected query is a 500, anything
    else is a slice of the caller's rows; the world stays as it is but
    for the log record of the failure. *)
Lemma get_tasks_run w skip limit user_id :
  get_tasks skip limit user_id w
  = if ((skip <? 0) || (limit <? 0))%Z then
      (Raise internal_server_error,
       logged w (db w) ERROR
         "Get tasks error: OFFSET and LIMIT must not be negative")
    else
      (Return (firstn (Z.to_nat limit)
                 (skipn (Z.to_nat skip)
                    (filter (owned_by user_id) (rows (db w))))), w).
Proof.
  unfold get_tasks. unfold_monad. simpl. unfold get_user_tasks.
  destruct ((skip <? 0) || (limit <? 0))%Z; simpl; [reflexivity|].
  destruct w; reflexivity.
Qed.

End Ownership.

(** C1.  A task in the table is out of reach of every caller who is not its
    owner: get-one, update and delete on its id raise 403 and leave the
    world (table and trace) as it was, so the task is neither returned nor
    changed; and whatever [skip] and [limit], the list operation returns
    only rows owned by the caller, so never that task. *)
Theorem ownership_exclusivity :
  forall (w : world Store.t) (t : Task.t) (user_id : Z),
    Store.wf (db w) ->
    In t (Store.rows (db w)) ->
    user_id <> Task.owner_id t ->
    (forall task_update,
        get_task (Task.id t) user_id w
        = (Raise (HTTPException 403 "Not authorized to access this task"), w)
        /\ update_task (Task.id t) task_update user_id w
           = (Raise (HTTPException 403 "Not authorized to update this task"),
              w)
        /\ delete_task (Task.id t) user_id w
           = (Raise (HTTPException 403 "Not authorized to delete this task"),
              w))
    /\ (forall x_user_id task_update,
           get_user_id_from_header x_user_id = Return user_id ->
           GET_task x_user_id (Task.id t) w
           = (Error 403 "Not authorized to access this task", w)
           /\ PUT_task x_user_id (Task.id t) task_update w
              = (Error 403 "Not authorized to update this task", w)
           /\ DELETE_task x_user_id (Task.id t) w
              = (Error 403 "Not authorized to delete this task", w))
    /\ (forall skip limit,
           db (snd (get_tasks skip limit user_id w)) = db w
           /\ match fst (get_tasks skip limit user_id w) with
              | Return tasks =>
                  ~ In t tasks
                  /\ Forall (fun r => Task.owner_id r = user_id) tasks
              | Raise e => e = internal_server_error
              end).
Proof.
  intros w t user_id Hwf Hin Hne.
  assert (Hne' : Task.owner_id t <> user_id) by congruence.
  pose proof (lookup_row w t Hwf Hin) as E.
  assert (Hh : forall task_update,
             get_task (Task.id t) user_id w
             = (Raise (HTTPException 403 "Not authorized to access this task"),
                w)
             /\ update_task (Task.id t) task_update user_id w
                = (Raise
                     (HTTPException 403 "Not authorized to update this task"),
                   w)
             /\ delete_task (Task.id t) user_id w
                = (Raise
                     (HTTPException 403 "Not authorized to delete this task"),
                   w)).
  { intros task_update.
    rewrite (get_task_403 w (Task.id t) E Hne').
    rewrite (update_task_403 w (Task.id t) task_update E Hne').
    rewrite (delete_task_403 w (Task.id t) E Hne').
    rewrite StoreFacts.with_db_same. repeat split. }
  split; [exact Hh|]. split.
  - intros x_user_id task_update Hid.
    destruct (Hh task_update) as (Hg & Hu & Hd). repeat split.
    + apply (serve_Depends _ _ _ Hid Hg).
    + apply (serve_Depends _ _ _ Hid Hu).
    + apply (serve_Depends _ _ _ Hid Hd).
  - intros skip limit. rewrite get_tasks_run.
    destruct ((skip <? 0) || (limit <? 0))%Z; simpl.
    + split; reflexivity.
    + split; [reflexivity|].
      assert (Hall : Forall (fun r => Task.owner_id r = user_id)
                       (firstn (Z.to_nat limit)
                          (skipn (Z.to_nat skip)
                             (filter (Store.owned_by user_id)
                                (Store.rows (db w)))))).
      { apply Forall_forall. intros r Hr.
        apply StoreFacts.In_slice in Hr. apply filter_In in Hr as [_ Hr].
        apply Z.eqb_eq. exact Hr. }
      split; [|exact Hall].
      intros Hin'. rewrite Forall_forall in Hall.
      apply Hne'. exact (Hall t Hin').
Qed.

Lemma ownership_exclusivity_witness :
  GET_task (Some "2") 1 one_task
  = (Error 403 "Not authorized to access this task", one_task)
  /\ PUT_task (Some "2") 1 no_update one_task
     = (Error 403 "Not authorized to update this task", one_task)
  /\ DELETE_task (Some "2") 1 one_task
     = (Error 403 "Not authorized to delete this task", one_task)
  /\ fst (get_tasks 0 100 2 one_task) = Return [].
Proof.
  assert (Hwf : Store.wf (db one_task)).
  { split; simpl.
    - constructor; [simpl; tauto|constructor].
    - constructor; [simpl; lia|constructor]. }
  destruct (@ownership_exclusivity one_task task_1 2
              Hwf (or_introl eq_refl) ltac:(discriminate))
    as (_ & Hroutes & _).
  destruct (Hroutes (Some "2") no_update eq_refl) as (Hg & Hu & Hd).
  split; [exact Hg|]. split; [exact Hu|]. split; [exact Hd|]. reflexivity.
Defined.

(** ** Partial update *)

(** C7.  On a task the caller owns, update returns and stores the task in
    which every field the payload supplies has the payload's value and every
    other field, and the id and the owner, has the value it had; the other
    rows of the table stay as they were. *)
Theorem partial_update_frame :
  forall (w : world Store.t) (t : Task.t) (task_update : TaskUpdate.t)
         (user_id : Z),
    Store.wf (db w) ->
    In t (Store.rows (db w)) ->
    Task.owner_id t = user_id ->
    exists updated w',
      update_task (Task.id t) task_update user_id w = (Return updated, w')
      /\ (forall x_user_id,
             get_user_id_from_header x_user_id = Return user_id ->
             PUT_task x_user_id (Task.id t) task_update w
             = (Ok200 updated, w'))
      /\ crud_get_task (Task.id t) (db w') = (Return (Some updated), db w')
      /\ Task.id updated = Task.id t
      /\ Task.owner_id updated = Task.owner_id t
      /\ Task.title updated
         = match TaskUpdate.title task_update with
           | Some title => title
           | None => Task.title t
           end
      /\ Task.description updated
         = match TaskUpdate.description task_update with
           | Some description => Some description
           | None => Task.description t
           end
      /\ Task.status updated
         = match TaskUpdate.status task_update with
           | Some status => status
           | None => Task.status t
           end
      /\ (forall other,
             other <> Task.id t ->
             fst (crud_get_task other (db w'))
             = fst (crud_get_task other (db w)))
      /\ Store.wf (db w').
Proof.
  intros w t task_update user_id Hwf Hin Hown.
  pose proof (lookup_row w t Hwf Hin) as E.
  assert (Hfind : find (Store.has_id (Task.id t)) (Store.rows (db w)) = Some t).
  { destruct Hwf as [Hnd _]. apply StoreFacts.find_unique; assumption. }
  assert (E' : crud_update_task (Task.id t) task_update (db w)
               = (Return (Store.apply_update task_update t),
                  snd (Store.update_task (Task.id t) task_update (db w)))).
  { simpl. unfold Store.update_task. rewrite Hfind. reflexivity. }
  pose proof (update_task_200 w (Task.id t) task_update E Hown E') as Hrun.
  eexists; eexists. split; [exact Hrun|].
  split; [intros x_user_id Hid; apply (serve_Depends _ _ _ Hid Hrun)|].
  split.
  { simpl. unfold Store.get_task, Store.update_task. rewrite Hfind. simpl.
    rewrite StoreFacts.find_updated, Hfind. reflexivity. }
  do 5 (split; [reflexivity|]).
  split.
  - intros other Hne. simpl. unfold Store.get_task, Store.update_task.
    rewrite Hfind. simpl.
    rewrite (StoreFacts.find_not_updated task_update _ Hne).
    reflexivity.
  - exact (StoreFacts.wf_update (Task.id t) task_update Hwf).
Qed.

Lemma partial_update_frame_witness :
  fst (PUT_task (Some "1") 1 close_it one_task)
  = Ok200 {| Task.id := 1;
             Task.owner_id := 1;
             Task.title := "A";
             Task.description := None;
             Task.status := "done" |}.
Proof.
  assert (Hwf : Store.wf (db one_task)).
  { split; simpl.
    - constructor; [simpl; tauto|constructor].
    - constructor; [simpl; lia|constructor]. }
  destruct (@partial_update_frame one_task task_1 close_it 1
              Hwf (or_introl eq_refl) eq_refl)
    as (updated & w' & _ & Hput & _ & Hid & Hown & Htitle & Hdesc & Hstatus
        & _).
  specialize (Hput (Some "1") eq_refl).
  change (Task.id task_1) with 1 in Hput. rewrite Hput. simpl.
  destruct updated as [i o ti de st]. simpl in *. congruence.
Defined.

(** ** Create, then get *)

(** C8.  Creating a task with payload [task] as [user_id] succeeds, and
    fetching the returned id as [user_id] right after succeeds with the same
    task: its title, description and status are the payload's, its owner is
    [user_id], and its id is the one generated at creation, which no earlier
    row has. *)
Theorem create_get_round_trip :
  forall (w : world Store.t) (task : TaskCreate.t) (user_id : Z),
    Store.wf (db w) ->
    exists db_task w1,
      create_task task user_id w = (Return db_task, w1)
      /\ get_task (Task.id db_task) user_id w1 = (Return db_task, w1)
      /\ (forall x_user_id,
             get_user_id_from_header x_user_id = Return user_id ->
             POST_tasks x_user_id task w = (Ok200 db_task, w1)
             /\ GET_task x_user_id (Task.id db_task) w1 = (Ok200 db_task, w1))
      /\ Task.title db_task = TaskCreate.title task
      /\ Task.description db_task = TaskCreate.description task
      /\ Task.status db_task = TaskCreate.status task
      /\ Task.owner_id db_task = user_id
      /\ Task.id db_task = Store.next_id (db w)
      /\ (forall r, In r (Store.rows (db w)) -> Task.id r <> Task.id db_task)
      /\ Store.wf (db w1).
Proof.
  intros w task user_id Hwf.
  pose (db_task := {| Task.id := Store.next_id (db w);
                      Task.owner_id := user_id;
                      Task.title := TaskCreate.title task;
                      Task.description := TaskCreate.description task;
                      Task.status := TaskCreate.status task |}).
  pose (w1 := logged w (snd (Store.create_task task user_id (db w))) INFO
                ("Task created: " ++ str_of_int (Task.id db_task)
                   ++ " for user " ++ str_of_int user_id)).
  assert (Hfresh : forall r,
             In r (Store.rows (db w)) -> Task.id r <> Task.id db_task).
  { destruct Hwf as [_ Hlt]. rewrite Forall_forall in Hlt.
    intros r Hin. specialize (Hlt r Hin). simpl. lia. }
  assert (Hcreate : create_task task user_id w = (Return db_task, w1)).
  { reflexivity. }
  assert (Hwf1 : Store.wf (db w1)).
  { exact (StoreFacts.wf_create task user_id Hwf). }
  assert (E : crud_get_task (Task.id db_task) (db w1)
              = (Return (Some db_task), db w1)).
  { assert (Hnone : find (Store.has_id (Store.next_id (db w)))
                        (Store.rows (db w)) = None)
      by (apply StoreFacts.find_None; exact Hfresh).
    simpl. unfold Store.get_task. simpl. rewrite StoreFacts.find_app, Hnone.
    simpl.
    unfold Store.has_id. simpl. rewrite Z.eqb_refl. reflexivity. }
  assert (Hget : get_task (Task.id db_task) user_id w1 = (Return db_task, w1)).
  { pose proof (get_task_200 w1 (Task.id db_task) (user_id := user_id)
                  E eq_refl) as Hrun.
    rewrite StoreFacts.with_db_same in Hrun. exact Hrun. }
  exists db_task, w1.
  split; [exact Hcreate|]. split; [exact Hget|]. split.
  { intros x_user_id Hid. split.
    - apply (serve_Depends _ _ _ Hid Hcreate).
    - apply (serve_Depends _ _ _ Hid Hget). }
  do 5 (split; [reflexivity|]).
  split; [exact Hfresh|exact Hwf1].
Qed.

Lemma create_get_round_trip_witness :
  fst (POST_tasks (Some "1") a_task fresh) = Ok200 task_1
  /\ fst (GET_task (Some "1") 1 (snd (POST_tasks (Some "1") a_task fresh)))
     = Ok200 task_1
  /\ fst (GET_task (Some "2") 1 (snd (POST_tasks (Some "1") a_task fresh)))
     = Error 403 "Not authorized to access this task".
Proof.
  assert (Hstranger :
            fst (GET_task (Some "2") 1
                   (snd (POST_tasks (Some "1") a_task fresh)))
            = Error 403 "Not authorized to access this task")
    by reflexivity.
  destruct (@create_get_round_trip fresh a_task 1 StoreFacts.wf_empty)
    as (db_task & w1 & _ & _ & Hroutes & Ht & Hd & Hs & Ho & Hi & _).
  destruct (Hroutes (Some "1") eq_refl) as (Hpost & Hget).
  assert (Heq : db_task = task_1).
  { destruct db_task; simpl in *. unfold task_1. congruence. }
  subst db_task. change (Task.id task_1) with 1 in Hget.
  rewrite Hpost in *. simpl in *. rewrite Hget.
  split; [reflexivity|]. split; [reflexivity|exact Hstranger].
Defined.

(** ** What a stranger learns *)

(** On the table: for a caller who does not own task [t], get-one, update
    and delete on its id answer 403 while [t] is there and 404 once [t],
    and nothing else, has been removed. *)
Lemma stranger_tells_tables_apart :
  forall (w : world Store.t) (t : Task.t) (user_id : Z),
    Store.wf (db w) ->
    In t (Store.rows (db w)) ->
    Task.owner_id t <> user_id ->
    let without := with_db w (snd (Store.delete_task (Task.id t) (db w))) in
    (forall r, In r (Store.rows (db without))
               <-> In r (Store.rows (db w)) /\ r <> t)
    /\ forall x_user_id task_update,
         get_user_id_from_header x_user_id = Return user_id ->
         (status_of (fst (GET_task x_user_id (Task.id t) w)) = 403
          /\ status_of (fst (GET_task x_user_id (Task.id t) without)) = 404)
         /\ (status_of (fst (PUT_task x_user_id (Task.id t) task_update w))
             = 403
             /\ status_of
                  (fst (PUT_task x_user_id (Task.id t) task_update without))
                = 404)
         /\ (status_of (fst (DELETE_task x_user_id (Task.id t) w)) = 403
             /\ status_of (fst (DELETE_task x_user_id (Task.id t) without))
                = 404)
         /\ fst (GET_task x_user_id (Task.id t) w)
            <> fst (GET_task x_user_id (Task.id t) without).
Proof.
  intros w t user_id Hwf Hin Hne without.
  assert (Hrows : forall r, In r (Store.rows (db without))
                            <-> In r (Store.rows (db w)) /\ r <> t).
  { intros r. simpl. rewrite filter_In, negb_true_iff, StoreFacts.has_id_false.
    split; intros [Hr Hx]; (split; [exact Hr|]).
    - intros ->. apply Hx. reflexivity.
    - intros Hid. apply Hx.
      destruct Hwf as [Hnd _].
      pose proof (StoreFacts.find_unique _ _ Hnd Hr) as F1.
      pose proof (StoreFacts.find_unique _ _ Hnd Hin) as F2.
      rewrite Hid in F1. congruence. }
  split; [exact Hrows|].
  intros x_user_id task_update Hid.
  pose proof (lookup_row w t Hwf Hin) as E.
  assert (E0 : crud_get_task (Task.id t) (db without)
               = (Return None, db without)).
  { apply lookup_no_row. intros r Hr Heq.
    apply Hrows in Hr as [Hr Hx]. apply Hx.
    destruct Hwf as [Hnd _].
    pose proof (StoreFacts.find_unique _ _ Hnd Hr) as F1.
    pose proof (StoreFacts.find_unique _ _ Hnd Hin) as F2.
    rewrite Heq in F1. congruence. }
  unfold GET_task, PUT_task, DELETE_task.
  rewrite (serve_Depends _ _ _ Hid (get_task_403 w (Task.id t) E Hne)).
  rewrite (serve_Depends _ _ _ Hid
             (update_task_403 w (Task.id t) task_update E Hne)).
  rewrite (serve_Depends _ _ _ Hid (delete_task_403 w (Task.id t) E Hne)).
  rewrite (serve_Depends _ _ _ Hid
             (get_task_404 without (Task.id t) user_id E0)).
  rewrite (serve_Depends _ _ _ Hid
             (update_task_404 without (Task.id t) task_update user_id E0)).
  rewrite (serve_Depends _ _ _ Hid
             (delete_task_404 without (Task.id t) user_id E0)).
  simpl. repeat split. discriminate.
Qed.

(** C10.  For a caller and a task id: where the lookup finds a task of
    another owner, get-one, update and delete answer 403; where it finds
    nothing they answer 404.  So the caller's responses differ between two
    databases that differ in whether the other user's task exists. *)
Theorem existence_disclosure :
  forall DB (P : Persistence DB) (w1 w2 : world DB) (t : Task.t) (d1 d2 : DB)
         (task_id user_id : Z),
    crud_get_task task_id (db w1) = (Return (Some t), d1) ->
    Task.owner_id t <> user_id ->
    crud_get_task task_id (db w2) = (Return None, d2) ->
    forall x_user_id task_update,
      get_user_id_from_header x_user_id = Return user_id ->
      (status_of (fst (GET_task x_user_id task_id w1)) = 403
       /\ status_of (fst (GET_task x_user_id task_id w2)) = 404)
      /\ (status_of (fst (PUT_task x_user_id task_id task_update w1)) = 403
          /\ status_of (fst (PUT_task x_user_id task_id task_update w2)) = 404)
      /\ (status_of (fst (DELETE_task x_user_id task_id w1)) = 403
          /\ status_of (fst (DELETE_task x_user_id task_id w2)) = 404)
      /\ fst (GET_task x_user_id task_id w1)
         <> fst (GET_task x_user_id task_id w2)
      /\ fst (PUT_task x_user_id task_id task_update w1)
         <> fst (PUT_task x_user_id task_id task_update w2)
      /\ fst (DELETE_task x_user_id task_id w1)
         <> fst (DELETE_task x_user_id task_id w2).
Proof.
  intros DB P w1 w2 t d1 d2 task_id user_id E1 Hne E2 x_user_id task_update
    Hid.
  unfold GET_task, PUT_task, DELETE_task.
  rewrite (serve_Depends _ _ _ Hid (get_task_403 w1 task_id E1 Hne)).
  rewrite (serve_Depends _ _ _ Hid
             (update_task_403 w1 task_id task_update E1 Hne)).
  rewrite (serve_Depends _ _ _ Hid (delete_task_403 w1 task_id E1 Hne)).
  rewrite (serve_Depends _ _ _ Hid (get_task_404 w2 task_id user_id E2)).
  rewrite (serve_Depends _ _ _ Hid
             (update_task_404 w2 task_id task_update user_id E2)).
  rewrite (serve_Depends _ _ _ Hid (delete_task_404 w2 task_id user_id E2)).
  simpl. repeat split; discriminate.
Qed.

Lemma existence_disclosure_witness :
  (status_of (fst (GET_task (Some "2") 1 one_task)) = 403
   /\ status_of (fst (GET_task (Some "2") 1 task_removed)) = 404)
  /\ fst (DELETE_task (Some "2") 1 one_task)
     <> fst (DELETE_task (Some "2") 1 task_removed).
Proof.
  destruct (@existence_disclosure Store.t Store.persistence one_task
              task_removed task_1 (db one_task) (db task_removed) 1 2
              eq_refl ltac:(discriminate) eq_refl (Some "2") no_update
              eq_refl)
    as (Hget & _ & _ & _ & _ & Hdel).
  split; [exact Hget|exact Hdel].
Defined.

(** * Further properties *)

(** ** A header for every identity *)

Section Numerals.

Import Decimal.

Lemma scan_uint d : forall acc n,
  PyInt.scan_digits (NilEmpty.string_of_uint d) PyInt.Digit acc n
  = Some (read_uint d acc, (n + nb_digits d)%nat, "").
Proof.
  induction d; intros acc n;
    [simpl; rewrite Nat.add_0_r; reflexivity|..];
    cbn -[Z.mul Z.add Nat.add]; rewrite IHd, Nat.add_succ_r; reflexivity.
Qed.

(** Reading from the most significant digit gives the library's value of
    the numeral. *)
Lemma read_uint_revapp d : forall d',
  Z.of_N (DecimalPos.Unsigned.of_lu (revapp d d'))
  = read_uint d (Z.of_N (DecimalPos.Unsigned.of_lu d')).
Proof.
  induction d; intros d'; cbn [revapp read_uint]; [reflexivity|..];
    rewrite IHd; f_equal; cbn [DecimalPos.Unsigned.of_lu]; lia.
Qed.

Lemma read_uint_of_uint d : read_uint d 0 = Z.of_uint d.
Proof.
  unfold Z.of_uint. rewrite DecimalPos.Unsigned.of_uint_alt. unfold rev.
  rewrite read_uint_revapp. reflexivity.
Qed.

Lemma string_of_uint_length d :
  String.length (NilEmpty.string_of_uint d) = nb_digits d.
Proof. induction d; simpl; congruence. Qed.

Lemma string_of_uint_nonnil d :
  d <> Nil -> NilZero.string_of_uint d = NilEmpty.string_of_uint d.
Proof. destruct d; [congruence|reflexivity..]. Qed.

Lemma scan_numeral d :
  d <> Nil ->
  PyInt.scan_digits (NilEmpty.string_of_uint d) PyInt.Start 0 0
  = Some (Z.of_uint d, nb_digits d, "").
Proof.
  intros Hd. rewrite <- read_uint_of_uint.
  destruct d; [congruence|..];
    cbn -[Z.mul Z.add Nat.add]; rewrite scan_uint; reflexivity.
Qed.

Lemma lstrip_numeral d :
  PyInt.lstrip (NilEmpty.string_of_uint d) = NilEmpty.string_of_uint d.
Proof. destruct d; reflexivity. Qed.

Lemma int_unfold s :
  PyInt.int s
  = let '(negative, s2) := split_sign (PyInt.lstrip s) in
    match PyInt.scan_digits s2 PyInt.Start 0 0 with
    | None => None
    | Some (v, digits, rest) =>
        if (PyInt.max_str_digits <? digits)%nat then None
        else
          match PyInt.lstrip rest with
          | EmptyString => Some (if negative then - v else v)
          | String _ _ => None
          end
    end.
Proof. reflexivity. Qed.

Lemma split_sign_numeral d :
  split_sign (NilEmpty.string_of_uint d)
  = (false, NilEmpty.string_of_uint d).
Proof. destruct d; reflexivity. Qed.

Lemma int_of_numeral d :
  d <> Nil ->
  (nb_digits d <= PyInt.max_str_digits)%nat ->
  PyInt.int (NilEmpty.string_of_uint d) = Some (Z.of_uint d)
  /\ PyInt.int (String "-" (NilEmpty.string_of_uint d))
     = Some (- Z.of_uint d).
Proof.
  intros Hd Hlen. apply Nat.ltb_ge in Hlen.
  pose proof (@scan_numeral d Hd) as Hscan.
  split; rewrite int_unfold.
  - rewrite lstrip_numeral, split_sign_numeral, Hscan, Hlen. reflexivity.
  - cbn [PyInt.lstrip]. change (PyInt.is_space "-") with false.
    cbv iota. cbn [split_sign]. rewrite Hscan, Hlen. reflexivity.
Qed.

End Numerals.

(** X1.  Every integer has a header that names it: the extractor reads the
    decimal rendering [str(n)] back as [n], for negative [n] too, as long as
    the rendering stays within the digit limit of [int]. *)
Theorem identity_round_trip :
  forall n : Z,
    (String.length (str_of_int (Z.abs n)) <= PyInt.max_str_digits)%nat ->
    PyInt.int (str_of_int n) = Some n
    /\ get_user_id_from_header (Some (str_of_int n)) = Return n.
Proof.
  intros n Hlen.
  assert (Hint : PyInt.int (str_of_int n) = Some n).
  { destruct n as [|p|p]; [reflexivity|..];
      pose proof (DecimalPos.Unsigned.to_uint_nonnil p) as Hd;
      unfold str_of_int in *; simpl Z.abs in Hlen; simpl Z.to_int in *;
      cbn [NilZero.string_of_int] in *;
      rewrite (@string_of_uint_nonnil _ Hd) in *;
      rewrite string_of_uint_length in Hlen;
      destruct (@int_of_numeral _ Hd Hlen) as [Hpos Hneg];
      rewrite ?Hpos, ?Hneg; unfold Z.of_uint;
      rewrite DecimalPos.Unsigned.of_to; reflexivity. }
  split; [exact Hint|].
  unfold get_user_id_from_header.
  destruct (str_of_int n) eqn:E; [discriminate Hint|].
  rewrite Hint. reflexivity.
Qed.

Lemma identity_round_trip_witness :
  get_user_id_from_header (Some "-12") = Return (-12)
  /\ get_user_id_from_header (Some "2026") = Return 2026.
Proof.
  split.
  - refine (proj2 (identity_round_trip (-12) _)).
    apply Nat.leb_le. reflexivity.
  - refine (proj2 (identity_round_trip 2026 _)).
    apply Nat.leb_le. reflexivity.
Defined.

(** ** What a header may be made of *)

Lemma all_chars_impl (f g : ascii -> bool) s :
  (forall c, f c = true -> g c = true) ->
  all_chars f s = true -> all_chars g s = true.
Proof.
  intros Hfg. induction s as [|c s IH]; simpl; [reflexivity|].
  intros [Hc Hs]%andb_prop. rewrite (Hfg c Hc), (IH Hs). reflexivity.
Qed.

Lemma lstrip_chars (f : ascii -> bool) s :
  (forall c, PyInt.is_space c = true -> f c = true) ->
  all_chars f (PyInt.lstrip s) = true -> all_chars f s = true.
Proof.
  intros Hsp. induction s as [|c s IH]; simpl; [reflexivity|].
  destruct (PyInt.is_space c) eqn:E; [|exact (fun Hs => Hs)].
  intros Hs. rewrite (Hsp c E), (IH Hs). reflexivity.
Qed.

Lemma lstrip_empty s :
  PyInt.lstrip s = "" -> all_chars PyInt.is_space s = true.
Proof.
  induction s as [|c s IH]; simpl; [reflexivity|].
  destruct (PyInt.is_space c); [exact IH|discriminate].
Qed.

(** What the digit scanner consumes is digits and underscores. *)
Lemma scan_chars (f : ascii -> bool) s : forall p acc n v k rest,
  (forall c, is_digit c = true -> f c = true) ->
  (forall c, PyInt.is_underscore c = true -> f c = true) ->
  PyInt.scan_digits s p acc n = Some (v, k, rest) ->
  all_chars f rest = true ->
  all_chars f s = true.
Proof.
  induction s as [|c s IH]; intros p acc n v k rest Hd Hu Hscan Hrest.
  - reflexivity.
  - cbn [PyInt.scan_digits] in Hscan. cbn [all_chars].
    destruct (PyInt.digit_value c) as [dv|] eqn:Edv.
    + rewrite (Hd c) by (unfold is_digit; rewrite Edv; reflexivity).
      exact (IH _ _ _ _ _ _ Hd Hu Hscan Hrest).
    + destruct (PyInt.is_underscore c) eqn:Eu.
      * rewrite (Hu c Eu).
        destruct p; try discriminate Hscan.
        exact (IH _ _ _ _ _ _ Hd Hu Hscan Hrest).
      * destruct p; try discriminate Hscan.
        injection Hscan as _ _ <-. exact Hrest.
Qed.

Lemma split_sign_chars s b s2 :
  split_sign s = (b, s2) ->
  all_chars numeric_char s2 = true -> all_chars numeric_char s = true.
Proof.
  destruct s as [|c r]; [intros [= _ <-]; auto|].
  destruct c as [[|] [|] [|] [|] [|] [|] [|] [|]];
    intros [= _ <-]; auto; simpl; intros ->; reflexivity.
Qed.

(** A string [int] accepts is made of blanks, a sign, digits and
    underscores. *)
Lemma int_accepts_numeric_chars_only s n :
  PyInt.int s = Some n -> all_chars numeric_char s = true.
Proof.
  rewrite int_unfold. intros Hint.
  apply lstrip_chars;
    [intros c Hc; unfold numeric_char; rewrite Hc; reflexivity|].
  destruct (split_sign (PyInt.lstrip s)) as [negative s2] eqn:Esign.
  apply (split_sign_chars _ Esign).
  destruct (PyInt.scan_digits s2 PyInt.Start 0 0) as [[[v k] rest]|] eqn:Escan;
    [|discriminate Hint].
  destruct (PyInt.max_str_digits <? k)%nat; [discriminate Hint|].
  destruct (PyInt.lstrip rest) eqn:Erest; [|discriminate Hint].
  eapply scan_chars; [| |exact Escan|].
  - intros c Hc. unfold numeric_char. rewrite Hc.
    rewrite !orb_true_r. reflexivity.
  - intros c Hc. unfold numeric_char. rewrite Hc.
    rewrite !orb_true_r. reflexivity.
  - apply all_chars_impl with (f := PyInt.is_space).
    + intros c Hc. unfold numeric_char. rewrite Hc. reflexivity.
    + apply lstrip_empty, Erest.
Qed.

(** X2.  A header value with any character that is not a decimal digit, an
    underscore, a sign or a blank is answered with 400 "Invalid user ID",
    wherever in the value that character stands. *)
Theorem non_numeric_header_is_bad_request :
  forall s : string,
    all_chars numeric_char s = false ->
    get_user_id_from_header (Some s) = Raise bad_request.
Proof.
  intros s Hbad. destruct s as [|c s]; [discriminate Hbad|].
  unfold get_user_id_from_header.
  destruct (PyInt.int (String c s)) as [n|] eqn:Hint; [|reflexivity].
  apply int_accepts_numeric_chars_only in Hint. congruence.
Qed.

Lemma non_numeric_header_is_bad_request_witness :
  get_user_id_from_header (Some "12a") = Raise bad_request
  /\ get_user_id_from_header (Some "0x1F") = Raise bad_request
  /\ get_user_id_from_header (Some "1.5") = Raise bad_request.
Proof.
  split; [|split].
  - apply (non_numeric_header_is_bad_request "12a"). reflexivity.
  - apply (non_numeric_header_is_bad_request "0x1F"). reflexivity.
  - apply (non_numeric_header_is_bad_request "1.5"). reflexivity.
Defined.

(** ** Every outcome of a request *)

(** Split the goal along every outcome the code branches on. *)
Ltac branch :=
  repeat match goal with
    | |- context [match ?x with _ => _ end] =>
        lazymatch x with
        | context [match _ with _ => _ end] => fail
        | _ => destruct x eqn:?
        end; simpl
    | |- context [if ?b then _ else _] => destruct b eqn:?; simpl
    end.

Ltac unfold_all :=
  unfold_routes; unfold Depends; unfold_handlers; unfold_monad; simpl.

Section Outcomes.

Context {DB : Type} `{Persistence DB}.
Implicit Types (w : world DB).

Lemma quiet_refl w : quiet_step w w.
Proof. exists []. rewrite app_nil_r. repeat split. simpl. lia. Qed.

Lemma quiet_with_db w d : quiet_step w (with_db w d).
Proof. exists []. simpl. rewrite app_nil_r. repeat split. lia. Qed.

Lemma quiet_logged w d lvl msg : quiet_step w (logged w d lvl msg).
Proof. exists [Log lvl msg]. repeat split. simpl. lia. Qed.

End Outcomes.



(** X4.  No handler lets an exception other than an [HTTPException] out:
    create and list raise nothing but their 500, the single-item handlers
    raise only [HTTPException]s, and the health check raises nothing at
    all.  Whatever the persistence layer does, the framework's own answer
    to a stray exception is never needed. *)
Theorem handlers_raise_only_HTTPException :
  forall DB (P : Persistence DB) (w : world DB) task skip limit task_id
         task_update user_id,
    raises_only (eq internal_server_error)
      (fst (create_task task user_id w))
    /\ raises_only (eq internal_server_error)
         (fst (get_tasks skip limit user_id w))
    /\ raises_only (fun e => is_HTTPException e = true)
         (fst (get_task task_id user_id w))
    /\ raises_only (fun e => is_HTTPException e = true)
         (fst (update_task task_id task_update user_id w))
    /\ raises_only (fun e => is_HTTPException e = true)
         (fst (delete_task task_id user_id w))
    /\ raises_only (fun _ => False) (fst (health_check w)).
Proof.
  intros. repeat split; unfold_handlers; unfold_monad; simpl; branch;
    simpl; auto.
Qed.



(** X6.  A request never sleeps and never touches the records already in
    the trace; it adds one log record at most.  This holds on every route,
    whatever the header and whatever the persistence layer does. *)
Theorem requests_log_at_most_once :
  forall DB (P : Persistence DB) (w : world DB) x_user_id task skip limit
         task_id task_update,
    quiet_step w (snd (POST_tasks x_user_id task w))
    /\ quiet_step w (snd (GET_tasks x_user_id skip limit w))
    /\ quiet_step w (snd (GET_task x_user_id task_id w))
    /\ quiet_step w (snd (PUT_task x_user_id task_id task_update w))
    /\ quiet_step w (snd (DELETE_task x_user_id task_id w))
    /\ quiet_step w (snd (GET_health w)).
Proof.
  intros. repeat split; unfold_all; branch;
    first [apply quiet_refl | apply (quiet_with_db w)
          | apply (quiet_logged w)].
Qed.

(** ** Who reaches the database *)

(** X7.  The read routes do a lookup and nothing more: after get-one and
    list the database is as that one query left it.  Update and delete
    reach no further than the lookup unless it returned a row owned by the
    caller: otherwise they raise, and the database is as the lookup left
    it. *)
Theorem mutation_requires_ownership :
  forall DB (P : Persistence DB) (w : world DB) task_id task_update skip limit
         user_id,
    db (snd (get_task task_id user_id w)) = snd (crud_get_task task_id (db w))
    /\ db (snd (get_tasks skip limit user_id w))
       = snd (crud_get_user_tasks user_id skip limit (db w))
    /\ ((forall t,
            fst (crud_get_task task_id (db w)) = Return (Some t) ->
            Task.owner_id t <> user_id) ->
        (exists e, fst (update_task task_id task_update user_id w) = Raise e)
        /\ db (snd (update_task task_id task_update user_id w))
           = snd (crud_get_task task_id (db w))
        /\ (exists e, fst (delete_task task_id user_id w) = Raise e)
        /\ db (snd (delete_task task_id user_id w))
           = snd (crud_get_task task_id (db w))).
Proof.
  intros DB P w task_id task_update skip limit user_id.
  split; [|split].
  - unfold_handlers. unfold_monad. simpl. branch; reflexivity.
  - unfold_handlers. unfold_monad. simpl. branch; reflexivity.
  - intros Hown. unfold_handlers. unfold_monad. simpl.
    destruct (crud_get_task task_id (db w)) as [[[t|]|e] d] eqn:E; simpl in *.
    + assert (Hne : negb (Task.owner_id t =? user_id)%Z = true)
        by (apply owner_mismatch, Hown; reflexivity).
      rewrite Hne. simpl. repeat split; eauto.
    + repeat split; eauto.
    + destruct (is_HTTPException e); simpl; repeat split; eauto.
Qed.

Lemma mutation_requires_ownership_witness :
  (exists e, fst (delete_task 1 2 one_task) = Raise e)
  /\ db (snd (delete_task 1 2 one_task)) = db one_task
  /\ db (snd (update_task 1 close_it 2 (unreachable 1)))
     = db (unreachable 0).
Proof.
  destruct (mutation_requires_ownership Store.persistence one_task 1 close_it
              0 100 2) as (_ & _ & Hstore).
  destruct Hstore as (_ & _ & Hraise & Hdb).
  { intros t [= <-]. discriminate. }
  destruct (mutation_requires_ownership Flaky.persistence (unreachable 1) 1
              close_it 0 100 2) as (_ & _ & Hflaky).
  destruct Hflaky as (_ & Hupd & _).
  { intros t E. discriminate E. }
  split; [exact Hraise|]. split; [exact Hdb|exact Hupd].
Defined.

(** ** Startup, at the edges *)

Section StartupEdges.

Context {DB : Type} `{Persistence DB}.
Implicit Types (w : world DB).

(** When the loop runs out, what it wrote last is a delay and then the
    CRITICAL record. *)
Lemma startup_loop_exhausted_tail attempts : forall w d,
  attempts <> [] ->
  failing_attempts (List.length attempts) (db w) = Some d ->
  exists evs,
    startup_loop attempts w
    = (Raise fatal,
       {| db := d;
          trace := trace w ++ evs ++ [Sleep delay; giving_up] |})
    /\ sleeps evs = repeat delay (List.length attempts - 1).
Proof.
  induction attempts as [|attempt rest IH]; intros w d Hne Hfail;
    [congruence|].
  simpl in Hfail.
  destruct (engine_begin_create_all (db w)) as [[[]|e] d1] eqn:E;
    [discriminate Hfail|].
  rewrite (startup_loop_failure attempt rest w E).
  destruct rest as [|next rest].
  - injection Hfail as <-. rewrite startup_loop_nil.
    exists (removelast (failed_attempt attempt e)).
    unfold failed_attempt, logged. simpl.
    rewrite <- !app_assoc. simpl.
    split; [reflexivity|]. destruct (is_not_ready e); reflexivity.
  - destruct (IH {| db := d1;
                    trace := trace w ++ failed_attempt attempt e |} d
                ltac:(discriminate) Hfail) as (evs & Hrun & Hs).
    exists (failed_attempt attempt e ++ evs)%list.
    simpl in Hrun. rewrite <- !app_assoc in Hrun. rewrite <- !app_assoc.
    split; [exact Hrun|].
    rewrite sleeps_app, failed_attempt_sleeps, Hs. simpl.
    rewrite Nat.sub_0_r. reflexivity.
Qed.

End StartupEdges.

(** X8.  When all ten attempts fail, the trace ends with a 3-second sleep
    and then the CRITICAL record: the tenth failure is still followed by a
    delay before startup gives up, which makes 30 seconds of delay in
    all. *)
Theorem startup_delays_before_giving_up :
  forall DB (P : Persistence DB) settings urlparse (w : world DB) parsed p d,
    urlparse (DATABASE_URL settings) = Return parsed ->
    port parsed = Return p ->
    failing_attempts 10 (db w) = Some d ->
    exists evs,
      startup_event settings urlparse w
      = (Raise fatal,
         {| db := d;
            trace := trace w ++ connecting parsed p :: evs
                       ++ [Sleep 3; giving_up] |})
      /\ sleeps evs = repeat 3 9
      /\ fold_right Z.add 0 (sleeps (evs ++ [Sleep 3; giving_up])) = 30.
Proof.
  intros DB P settings urlparse w parsed p d Hurl Hport Hfail.
  rewrite (startup_event_parsed settings urlparse w Hurl Hport).
  destruct (@startup_loop_exhausted_tail DB P (seq 1 retries)
              {| db := db w; trace := trace w ++ [connecting parsed p] |}
              d ltac:(discriminate) Hfail) as (evs & Hrun & Hs).
  exists evs. simpl in Hrun. rewrite <- app_assoc in Hrun.
  split; [exact Hrun|]. split; [exact Hs|].
  rewrite sleeps_app, Hs. reflexivity.
Qed.

Lemma startup_delays_before_giving_up_witness :
  exists evs,
    trace (snd (startup_event sample_settings sample_urlparse
                  (unreachable 10)))
    = (connecting {| hostname := Some "db"; port := Return (Some 5432) |}
         (Some 5432) :: evs ++ [Sleep 3; giving_up])%list
    /\ fold_right Z.add 0 (sleeps (evs ++ [Sleep 3; giving_up])) = 30.
Proof.
  destruct (@startup_delays_before_giving_up Flaky.t Flaky.persistence
              sample_settings sample_urlparse (unreachable 10) _ _
              (db (unreachable 0)) eq_refl eq_refl eq_refl)
    as (evs & Hrun & _ & Hsum).
  exists evs. rewrite Hrun. split; [reflexivity|exact Hsum].
Defined.

(** X9.  A database URL that [urlparse] cannot split, or whose port is not
    a number, ends startup at once with that exception: no connection is
    attempted, nothing is logged, nobody sleeps. *)
Theorem startup_stops_on_bad_url :
  forall DB (P : Persistence DB) settings urlparse (w : world DB) e,
    urlparse (DATABASE_URL settings) = Raise e
    \/ (exists parsed,
           urlparse (DATABASE_URL settings) = Return parsed
           /\ port parsed = Raise e) ->
    startup_event settings urlparse w = (Raise e, w).
Proof.
  intros DB P settings urlparse w e [Hurl | (parsed & Hurl & Hport)];
    unfold startup_event, bind at 1; rewrite Hurl; simpl;
    [reflexivity|].
  unfold bind at 1. rewrite Hport. reflexivity.
Qed.

Lemma startup_stops_on_bad_url_witness :
  startup_event sample_settings bad_port_urlparse (unreachable 0)
  = (Raise (ValueError "Port could not be cast to integer value as 'abc'"),
     unreachable 0).
Proof.
  apply (@startup_stops_on_bad_url Flaky.t Flaky.persistence sample_settings
           bad_port_urlparse (unreachable 0)).
  right. eexists. split; reflexivity.
Defined.

(** ** One identity, several headers *)

Section Spellings.

Import Decimal.

Lemma int_of_spelled_numeral d :
  d <> Nil ->
  (S (nb_digits d) <= PyInt.max_str_digits)%nat ->
  PyInt.int (String "+" (NilEmpty.string_of_uint d)) = Some (Z.of_uint d)
  /\ PyInt.int (String "0" (NilEmpty.string_of_uint d)) = Some (Z.of_uint d)
  /\ PyInt.int (String " " (NilEmpty.string_of_uint d)) = Some (Z.of_uint d).
Proof.
  intros Hd Hlen.
  assert (Hlen' : (nb_digits d <= PyInt.max_str_digits)%nat) by lia.
  pose proof (@scan_numeral d Hd) as Hscan.
  apply Nat.ltb_ge in Hlen. apply Nat.ltb_ge in Hlen'.
  split; [|split]; rewrite int_unfold.
  - cbn [PyInt.lstrip]. change (PyInt.is_space "+") with false.
    cbv iota. cbn [split_sign]. rewrite Hscan, Hlen'. reflexivity.
  - cbn [PyInt.lstrip]. change (PyInt.is_space "0") with false.
    cbv iota. cbn [split_sign]. cbn -[Z.mul Z.add Nat.add Nat.ltb].
    rewrite scan_uint. change (1 + nb_digits d)%nat with (S (nb_digits d)).
    rewrite Hlen. simpl PyInt.lstrip. cbv iota.
    change (10 * 0 + (48 - 48)) with 0. rewrite read_uint_of_uint.
    reflexivity.
  - cbn [PyInt.lstrip]. change (PyInt.is_space " ") with true.
    cbv iota. rewrite lstrip_numeral, split_sign_numeral, Hscan, Hlen'.
    reflexivity.
Qed.

End Spellings.

(** X10.  The caller is the integer, not the text of the header: for a
    non-negative [n], the rendering [str(n)] with a plus sign, a zero or a
    blank put in front is still extracted as [n]. *)
Theorem header_spellings :
  forall n : Z,
    0 <= n ->
    (S (String.length (str_of_int n)) <= PyInt.max_str_digits)%nat ->
    get_user_id_from_header (Some (String "+" (str_of_int n))) = Return n
    /\ get_user_id_from_header (Some (String "0" (str_of_int n))) = Return n
    /\ get_user_id_from_header (Some (String " " (str_of_int n))) = Return n.
Proof.
  intros n Hn Hlen. unfold get_user_id_from_header.
  destruct n as [|p|p]; [repeat split| |lia].
  pose proof (DecimalPos.Unsigned.to_uint_nonnil p) as Hd.
  unfold str_of_int in *. simpl Z.to_int in *.
  cbn [NilZero.string_of_int] in *.
  rewrite (@string_of_uint_nonnil _ Hd) in *.
  rewrite string_of_uint_length in Hlen.
  destruct (@int_of_spelled_numeral _ Hd Hlen) as (Hplus & Hzero & Hblank).
  rewrite Hplus, Hzero, Hblank. unfold Z.of_uint.
  rewrite DecimalPos.Unsigned.of_to. repeat split.
Qed.

Lemma header_spellings_witness :
  get_user_id_from_header (Some "+7") = Return 7
  /\ get_user_id_from_header (Some "07") = Return 7
  /\ get_user_id_from_header (Some " 7") = Return 7.
Proof.
  refine (@header_spellings 7 _ _).
  - lia.
  - apply Nat.leb_le. reflexivity.
Defined.
